(** * Chaos Toolkit AWS MCP server: experiment generation and dispatch

    A shallow embedding of [src/chaostoolkit_aws_mcp_server/server.py].

    - JSON values (the [Dict[str, Any]] argument bags and the generated
      experiment documents) are an inductive type whose objects are
      finite maps from strings.
    - The three pydantic models are records; their constructors perform
      the [str] validation pydantic 2 performs (the [mcp] package the
      server imports requires pydantic 2).
    - The handlers run in a state-and-exception monad over a [world]
      holding the named files and a log of the subprocess invocations.
    - What the Python standard library and the operating system decide
      (the text [json.dumps] produces, [repr] of containers, what the
      [chaos] command line does, the name [tempfile] picks, whether
      the temporary file gets written) enters as section variables.

    The module defines several handlers twice, word for word, and
    leaves stale copies of two bodies after a [return]; the later
    definition of each name is the one embedded here.

    The definitions come first; the lemmas and theorems follow, inside
    the same section, and then their instances on concrete inputs. *)

From Stdlib Require Import Ascii.
From stdpp Require Import gmap strings list fin_maps pretty stringmap.

#[local] Set Warnings "-register-all".
#[local] Open Scope string_scope.
#[local] Open Scope list_scope.

(** ** JSON values *)

(** The values of an argument bag. Numbers are integers, as every
    numeric property of the schemas in [list_tools] is declared; JSON's
    fractional numbers are left out. *)
Inductive json : Type :=
  | JNull
  | JBool (b : bool)
  | JInt (n : Z)
  | JStr (s : string)
  | JList (l : list json)
  | JObj (m : gmap string json).

(** Python's truth value of a JSON value ([if args.get(k):]). *)
Definition truthy (v : json) : bool :=
  match v with
  | JNull => false
  | JBool b => b
  | JInt n => negb (n =? 0)%Z
  | JStr s => negb (String.eqb s EmptyString)
  | JList l => negb (Nat.eqb (length l) 0)
  | JObj m => negb (Nat.eqb (size m) 0)
  end.

(** [d[k]] read from a document; [None] where Python would raise. *)
Definition get (k : string) (v : json) : option json :=
  match v with
  | JObj m => m !! k
  | _ => None
  end.

Definition as_list (v : json) : option (list json) :=
  match v with
  | JList l => Some l
  | _ => None
  end.

Definition as_str (v : json) : option string :=
  match v with
  | JStr s => Some s
  | _ => None
  end.

Definition as_obj (v : json) : option (gmap string json) :=
  match v with
  | JObj m => Some m
  | _ => None
  end.

(** ** Strings *)

Definition nl : string := String "010"%char EmptyString.

(** [sub in s] on Python strings. *)
Fixpoint str_in (sub s : string) : bool :=
  String.prefix sub s ||
  match s with
  | EmptyString => false
  | String _ s' => str_in sub s'
  end.

(** [sep.join(l)]. *)
Definition join (sep : string) (l : list string) : string := String.concat sep l.

(** ** Exceptions and results *)

Inductive exn : Type :=
  | KeyError (key : string)
  | ValidationError (model field : string)
  | ValueError (msg : string)
  | TypeError (msg : string)
  | FileNotFoundError (path : string)
  | TimeoutExpired (cmd : list json) (timeout : Z)
  | OtherError (msg : string).

Inductive result (A : Type) : Type :=
  | Ok (a : A)
  | Raise (e : exn).
Arguments Ok {A} a.
Arguments Raise {A} e.

Definition is_ok {A} (r : result A) : bool :=
  match r with Ok _ => true | Raise _ => false end.

(** ** The pydantic models *)

Record ExperimentConfig := mkExperimentConfig {
  title : string;
  description : string;
  aws_region : string;
  tags : list string
}.

Record ProbeConfig := mkProbeConfig {
  probe_name : string;
  probe_type : string;
  probe_module : string;
  probe_func : string;
  probe_arguments : gmap string json;
  tolerance : json
}.

Record ActionConfig := mkActionConfig {
  action_name : string;
  action_type : string;
  action_module : string;
  action_func : string;
  action_arguments : gmap string json
}.

(** A field annotated [str] accepts a string and nothing else. *)
Definition validate_str (model field : string) (v : json) : result string :=
  match v with
  | JStr s => Ok s
  | _ => Raise (ValidationError model field)
  end.

(** [ExperimentConfig(title=t, description=d, aws_region=r)]: the
    description is always an f-string in the callers, [tags] keeps its
    default. *)
Definition new_ExperimentConfig (t : json) (d : string) (r : json)
  : result ExperimentConfig :=
  match validate_str "ExperimentConfig" "title" t with
  | Raise e => Raise e
  | Ok t' =>
    match validate_str "ExperimentConfig" "aws_region" r with
    | Raise e => Raise e
    | Ok r' => Ok (mkExperimentConfig t' d r' [])
    end
  end.

(** [ProbeConfig(name=, module=, func=, arguments=)] with the defaults
    [type="probe"], [tolerance=True]. *)
Definition new_ProbeConfig (n m f : string) (a : gmap string json) : ProbeConfig :=
  mkProbeConfig n "probe" m f a (JBool true).

(** [ActionConfig(name=, module=, func=, arguments=)] with the default
    [type="action"]. *)
Definition new_ActionConfig (n m f : string) (a : gmap string json) : ActionConfig :=
  mkActionConfig n "action" m f a.

(** ** generate_experiment_json *)

Definition provider (m f : string) (a : gmap string json) : json :=
  JObj {[ "type" := JStr "python";
          "module" := JStr m;
          "func" := JStr f;
          "arguments" := JObj a ]}.

Definition probe_entry (probe : ProbeConfig) : json :=
  JObj {[ "type" := JStr (probe_type probe);
          "name" := JStr (probe_name probe);
          "provider" := provider (probe_module probe) (probe_func probe)
                                 (probe_arguments probe);
          "tolerance" := tolerance probe ]}.

Definition action_entry (action : ActionConfig) : json :=
  JObj {[ "type" := JStr (action_type action);
          "name" := JStr (action_name action);
          "provider" := provider (action_module action) (action_func action)
                                 (action_arguments action) ]}.

Definition generate_experiment_json
    (config : ExperimentConfig) (probes : list ProbeConfig)
    (actions rollbacks : list ActionConfig) : json :=
  JObj {[ "version" := JStr "1.0.0";
          "title" := JStr (title config);
          "description" := JStr (description config);
          "tags" := JList (JStr <$> tags config);
          "configuration" := JObj {[ "aws_region" := JStr (aws_region config) ]};
          "steady-state-hypothesis" :=
            JObj {[ "title" := JStr "System is in steady state";
                    "probes" := JList (probe_entry <$> probes) ]};
          "method" := JList (action_entry <$> actions);
          "rollbacks" := JList (action_entry <$> rollbacks) ]}.

(** Reading a rendered step or probe back from a document. *)
Definition read_action (e : json) : option ActionConfig :=
  ty ← get "type" e ≫= as_str;
  n ← get "name" e ≫= as_str;
  p ← get "provider" e;
  m ← get "module" p ≫= as_str;
  f ← get "func" p ≫= as_str;
  a ← get "arguments" p ≫= as_obj;
  Some (mkActionConfig n ty m f a).

Definition read_probe (e : json) : option ProbeConfig :=
  ty ← get "type" e ≫= as_str;
  n ← get "name" e ≫= as_str;
  p ← get "provider" e;
  m ← get "module" p ≫= as_str;
  f ← get "func" p ≫= as_str;
  a ← get "arguments" p ≫= as_obj;
  t ← get "tolerance" e;
  Some (mkProbeConfig n ty m f a t).

(** The three ordered sections of a document. *)
Definition method_of (doc : json) : option (list json) :=
  get "method" doc ≫= as_list.

Definition rollbacks_of (doc : json) : option (list json) :=
  get "rollbacks" doc ≫= as_list.

Definition probes_of (doc : json) : option (list json) :=
  h ← get "steady-state-hypothesis" doc;
  get "probes" h ≫= as_list.

(** ** The result monad (exceptions without state) *)

#[global] Instance result_ret : MRet result := λ A a, Ok a.
#[global] Instance result_bind : MBind result := λ A B f r,
  match r with
  | Ok a => f a
  | Raise e => Raise e
  end.

(** [args[k]] and [args.get(k, d)] on an argument bag. *)
Definition subscript (args : gmap string json) (k : string) : result json :=
  match args !! k with
  | Some v => Ok v
  | None => Raise (KeyError k)
  end.

Definition args_get (args : gmap string json) (k : string) (d : json) : json :=
  default d (args !! k).

(** One item of a tool result: [{"type": "text", "text": s}]. *)
Definition text_item (s : string) : json :=
  JObj {[ "type" := JStr "text"; "text" := JStr s ]}.

(** ** The world: named files and the subprocess log *)

Record call := mkCall {
  call_cmd : list json;
  call_cwd : option json;
  call_timeout : Z
}.

Record world := mkWorld {
  files : gmap string string;
  getcwd : string;
  calls : list (call * gmap string string);
  temps : list string
}.

(** What [subprocess.run(..., capture_output=True, text=True)] can do. *)
Inductive outcome : Type :=
  | Completed (returncode : Z) (stdout stderr : string)
  | Expired
  | Failed (e : exn).

(** What the block [with tempfile.NamedTemporaryFile(..., delete=False)
    as f: json.dump(...)] can do: write the file and close it; raise
    before any file exists; or raise from the write or the close, once
    the file exists, which [delete=False] then leaves on disk with what
    reached it. *)
Inductive temp_outcome : Type :=
  | TempWritten
  | TempRefused (e : exn)
  | TempTorn (partial : string) (e : exn).

(** ** The state-and-exception monad *)

Definition M (S A : Type) : Type := S → result A * S.

#[global] Instance M_ret {S} : MRet (M S) := λ A a s, (Ok a, s).
#[global] Instance M_bind {S} : MBind (M S) := λ A B f m s,
  match m s with
  | (Ok a, s') => f a s'
  | (Raise e, s') => (Raise e, s')
  end.

Definition lift {S A} (r : result A) : M S A := λ s, (r, s).

Definition try_except {S A} (body : M S A) (handler : exn → M S A) : M S A :=
  λ s, match body s with
       | (Ok a, s') => (Ok a, s')
       | (Raise e, s') => handler e s'
       end.

Definition try_finally {S A} (body : M S A) (final : M S unit) : M S A :=
  λ s, match body s with
       | (r, s') =>
         match final s' with
         | (Ok _, s'') => (r, s'')
         | (Raise e, s'') => (Raise e, s'')
         end
       end.

(** A handler body working on the world while a local [results] list
    is in scope. *)
Definition in_world {L A} (m : M world A) : M (world * L) A :=
  λ s, match m s.1 with (r, w') => (r, (w', s.2)) end.

(** [results.append(x)]. *)
Definition append (x : string) : M (world * list string) unit :=
  λ s, (Ok tt, (s.1, s.2 ++ [x])).

(** [for x in l: body x]. *)
Fixpoint for_each {S A} (l : list A) (body : A → M S unit) : M S unit :=
  match l with
  | [] => mret tt
  | x :: l' => body x ≫= λ _, for_each l' body
  end.

(** ** list_tools: the catalog

    Each tool with the property names of its input schema and the
    fields the schema lists as required. *)

Record Tool := mkTool {
  tool_name : string;
  properties : list string;
  required : list string
}.

Definition list_tools : list Tool := [
  mkTool "chaos_generate_az_failure_experiment"
    ["title"; "az"; "failure_type"; "dry_run"; "health_check_url";
     "state_path"; "output_file"; "aws_region"]
    ["title"; "az"];
  mkTool "chaos_isolate_az_network"
    ["title"; "az"; "vpc_id"; "dry_run"; "output_file"; "aws_region"]
    ["title"; "az"; "vpc_id"];
  mkTool "chaos_simulate_az_partition"
    ["title"; "az"; "partition_type"; "dry_run"; "output_file"; "aws_region"]
    ["title"; "az"];
  mkTool "chaos_generate_asg_az_failure_experiment"
    ["title"; "az"; "asg_tags"; "dry_run"; "health_check_url";
     "state_path"; "output_file"; "aws_region"]
    ["title"; "az"];
  mkTool "chaos_generate_ec2_actions_experiment"
    ["title"; "action_type"; "instance_ids"; "filters"; "az";
     "output_file"; "aws_region"]
    ["title"; "action_type"];
  mkTool "chaos_run_experiment"
    ["experiment_file"; "dry_run"; "journal_path"; "working_directory"]
    ["experiment_file"];
  mkTool "chaos_validate_experiment"
    ["experiment_file"]
    ["experiment_file"];
  mkTool "chaos_rollback_from_state"
    ["state_files"; "working_directory"]
    ["state_files"];
  mkTool "chaos_stop_instances"
    ["title"; "instance_ids"; "filters"; "az"; "force"; "output_file";
     "aws_region"]
    ["title"];
  mkTool "chaos_terminate_instances"
    ["title"; "instance_ids"; "filters"; "az"; "output_file"; "aws_region"]
    ["title"];
  mkTool "chaos_reboot_instances"
    ["title"; "instance_ids"; "filters"; "az"; "output_file"; "aws_region"]
    ["title"];
  mkTool "chaos_detach_volumes"
    ["title"; "instance_ids"; "volume_ids"; "device_names"; "force";
     "output_file"; "aws_region"]
    ["title"];
  mkTool "chaos_suspend_asg_processes"
    ["title"; "asg_names"; "scaling_processes"; "output_file"; "aws_region"]
    ["title"; "asg_names"];
  mkTool "chaos_terminate_random_instances"
    ["title"; "asg_names"; "instance_count"; "az_name"; "output_file";
     "aws_region"]
    ["title"; "asg_names"];
  mkTool "chaos_ssm_send_command"
    ["title"; "instance_ids"; "document_name"; "commands"; "output_file";
     "aws_region"]
    ["title"; "instance_ids"; "commands"];
  mkTool "chaos_ssm_stress_cpu"
    ["title"; "instance_ids"; "cpu_cores"; "duration_seconds";
     "output_file"; "aws_region"]
    ["title"; "instance_ids"];
  mkTool "chaos_ssm_fill_disk"
    ["title"; "instance_ids"; "path"; "size_mb"; "duration_seconds";
     "output_file"; "aws_region"]
    ["title"; "instance_ids"];
  mkTool "chaos_ssm_kill_process"
    ["title"; "instance_ids"; "process_name"; "signal"; "output_file";
     "aws_region"]
    ["title"; "instance_ids"; "process_name"];
  mkTool "chaos_modify_security_groups"
    ["title"; "group_ids"; "action"; "rules"; "output_file"; "aws_region"]
    ["title"; "group_ids"; "action"];
  mkTool "chaos_simulate_network_latency"
    ["title"; "instance_ids"; "latency_ms"; "duration_seconds";
     "output_file"; "aws_region"]
    ["title"; "instance_ids"];
  mkTool "chaos_reboot_db_instance"
    ["title"; "db_instance_identifier"; "force_failover"; "output_file";
     "aws_region"]
    ["title"; "db_instance_identifier"];
  mkTool "chaos_failover_db_cluster"
    ["title"; "db_cluster_identifier"; "target_db_instance_identifier";
     "output_file"; "aws_region"]
    ["title"; "db_cluster_identifier"];
  mkTool "chaos_deregister_targets"
    ["title"; "target_group_arn"; "target_ids"; "output_file"; "aws_region"]
    ["title"; "target_group_arn"] ].

Definition tool_names : list string := tool_name <$> list_tools.

(** The default each schema of [list_tools] advertises for its
    [output_file] property; the three execution tools have none. *)
Definition advertised_output_file : list (string * string) := [
  ("chaos_generate_az_failure_experiment", "./az-failure-experiment.json");
  ("chaos_isolate_az_network", "./isolate-az-experiment.json");
  ("chaos_simulate_az_partition", "./az-partition-experiment.json");
  ("chaos_generate_asg_az_failure_experiment", "./asg-az-failure-experiment.json");
  ("chaos_generate_ec2_actions_experiment", "./ec2-chaos-experiment.json");
  ("chaos_stop_instances", "./stop-instances-experiment.json");
  ("chaos_terminate_instances", "./terminate-instances-experiment.json");
  ("chaos_reboot_instances", "./reboot-instances-experiment.json");
  ("chaos_detach_volumes", "./detach-volumes-experiment.json");
  ("chaos_suspend_asg_processes", "./suspend-asg-experiment.json");
  ("chaos_terminate_random_instances", "./terminate-random-experiment.json");
  ("chaos_ssm_send_command", "./ssm-command-experiment.json");
  ("chaos_ssm_stress_cpu", "./ssm-cpu-stress-experiment.json");
  ("chaos_ssm_fill_disk", "./ssm-fill-disk-experiment.json");
  ("chaos_ssm_kill_process", "./ssm-kill-process-experiment.json");
  ("chaos_modify_security_groups", "./modify-sg-experiment.json");
  ("chaos_simulate_network_latency", "./network-latency-experiment.json");
  ("chaos_reboot_db_instance", "./reboot-db-experiment.json");
  ("chaos_failover_db_cluster", "./failover-cluster-experiment.json");
  ("chaos_deregister_targets", "./deregister-targets-experiment.json") ].

(** Case analysis on membership in a literal list. *)
Ltac elem_cases H :=
  repeat (apply elem_of_cons in H as [H|H]; [try subst|]);
  [..|by apply elem_of_nil in H].

(** ** A test environment

    Stand-ins for the Python runtime and the operating system, in the
    manner of the mocks of [tests/test_server.py]. None of the command
    lines touches a file. *)

Definition fake_repr (v : json) : string := "<container>".

Definition fake_str_exn (e : exn) : string :=
  match e with
  | KeyError k => k
  | ValidationError m f => m +:+ "." +:+ f
  | ValueError s | TypeError s | OtherError s => s
  | FileNotFoundError p => "No such file or directory: " +:+ p
  | TimeoutExpired _ _ => "timed out"
  end.

(** A stand-in for [json.dumps] that tells documents apart by title. *)
Definition fake_dumps (doc : json) : string :=
  "{title: " +:+ default EmptyString (get "title" doc ≫= as_str) +:+ "}".

Definition fake_run (c : call) (w : world) : outcome * gmap string string :=
  (Completed 0 "ok" EmptyString, files w).

(** A command line that never returns in time. *)
Definition slow_run (c : call) (w : world) : outcome * gmap string string :=
  (Expired, files w).

(** A command line that cannot even be started. *)
Definition broken_run (c : call) (w : world) : outcome * gmap string string :=
  (Failed (OtherError "No such file or directory: 'chaos'"), files w).

Definition fake_temp_name (w : world) : string :=
  "/tmp/tmp" +:+ pretty (length (temps w)) +:+ ".json".

(** A command line that succeeds and wipes every file on its way. *)
Definition wiping_run (c : call) (w : world) : outcome * gmap string string :=
  (Completed 0 EmptyString EmptyString, ∅).

(** A name generator that, like [tempfile], never picks a name in use. *)
Definition fresh_temp_name (w : world) : string :=
  fresh_string "/tmp/tmp.json" (files w).

(** A temporary directory that takes every file. *)
Definition roomy (content : string) (w : world) : temp_outcome := TempWritten.

(** A temporary directory on a full disk: the file is created, and the
    write fails when the file is closed. *)
Definition full_disk (content : string) (w : world) : temp_outcome :=
  TempTorn EmptyString (OtherError "[Errno 28] No space left on device").

Definition empty_world : world := mkWorld ∅ "/work" [] [].

(** A world holding one EC2 state file. *)
Definition ec2_world : world :=
  mkWorld {[ "./fail_az.ec2.json" := "{}" ]} "/work" [] [].

Section server.

(** ** The environment *)

(** [repr] of a list or dict, [str(e)] of an exception and
    [json.dumps(doc, indent=2)] are Python's; the server only splices
    their text into messages and files. *)
Variable py_repr : json → string.
Variable str_exn : exn → string.
Variable dumps : json → string.

(** What running a command does: its outcome and the files it leaves,
    given the call and the world it starts in. *)
Variable os_run : call → world → outcome * gmap string string.

(** The name [tempfile.NamedTemporaryFile] picks. *)
Variable temp_name : world → string.

(** [str(v)], as an f-string formats a value. *)
Definition py_str (v : json) : string :=
  match v with
  | JNull => "None"
  | JBool true => "True"
  | JBool false => "False"
  | JInt n => pretty n
  | JStr s => s
  | JList _ | JObj _ => py_repr v
  end.

(** ** Operating-system primitives *)

(** [os.path.exists(p)] for the paths of the schemas, which are
    strings, compared as written. The world holds named files only:
    Python takes an integer (and so a boolean) for a file descriptor and
    answers for it, which is left out here, every other value being
    refused with [TypeError] as Python does. The theorems that depend on
    the answer are stated for string paths. *)
Definition os_path_exists (p : json) : M world bool :=
  match p with
  | JStr p => λ w, (Ok (bool_decide (is_Some (files w !! p))), w)
  | _ => lift (Raise (TypeError "expected str, bytes or os.PathLike object"))
  end.

(** [with open(p, "w") as f: json.dump(doc, f, indent=2)], for a string
    path and when the file system takes the file: the step as it
    succeeds. Opening or writing can also fail in ways the world does
    not record (a missing directory, a full disk), and an integer path
    would write to a descriptor; the theorems on generated files are
    stated for string paths and speak of what is written when the
    generator returns. *)
Definition open_write (p : json) (content : string) : M world unit :=
  match p with
  | JStr p => λ w,
      (Ok tt, mkWorld (<[p := content]> (files w)) (getcwd w) (calls w) (temps w))
  | _ => lift (Raise (TypeError "expected str, bytes or os.PathLike object"))
  end.

(** [with tempfile.NamedTemporaryFile(mode='w', suffix='.json',
    delete=False) as f: json.dump(doc, f, indent=2); temp_file = f.name],
    when the file gets written; [named_temporary_file_io] is the step
    with its failures. *)
Definition named_temporary_file (content : string) : M world string :=
  λ w, let t := temp_name w in
       (Ok t, mkWorld (<[t := content]> (files w)) (getcwd w) (calls w)
                      (temps w ++ [t])).

(** [os.unlink(p)]. *)
Definition os_unlink (p : string) : M world unit :=
  λ w, match files w !! p with
       | Some _ => (Ok tt, mkWorld (delete p (files w)) (getcwd w) (calls w) (temps w))
       | None => (Raise (FileNotFoundError p), w)
       end.

(** [os.getcwd()]. *)
Definition os_getcwd : M world string := λ w, (Ok (getcwd w), w).

(** [subprocess.run(cmd, cwd=cwd, capture_output=True, text=True,
    timeout=t)]: the call is logged with the files it starts from. *)
Definition subprocess_run (cmd : list json) (cwd : option json) (t : Z)
  : M world (Z * string * string) :=
  λ w, let c := mkCall cmd cwd t in
       let w' := mkWorld (os_run c w).2 (getcwd w) (calls w ++ [(c, files w)]) (temps w) in
       match (os_run c w).1 with
       | Completed rc out err => (Ok (rc, out, err), w')
       | Expired => (Raise (TimeoutExpired cmd t), w')
       | Failed e => (Raise e, w')
       end.

(** ** The generators *)

(** The health-check probe both AZ generators add when
    [args.get("health_check_url")] is truthy. *)
Definition health_check_probes (args : gmap string json) : list ProbeConfig :=
  if truthy (args_get args "health_check_url" JNull) then
    [new_ProbeConfig "health_check" "chaoslib.provider.http" "get"
       {[ "url" := args_get args "health_check_url" JNull;
          "expected_status" := JInt 200 ]}]
  else [].

(** The document [generate_az_failure_experiment] assembles. *)
Definition az_failure_document (args : gmap string json) : result json :=
  t ← subscript args "title";
  az ← subscript args "az";
  config ← new_ExperimentConfig t ("AZ failure test for " +:+ py_str az)
             (args_get args "aws_region" (JStr "us-east-1"));
  let probes := health_check_probes args in
  let actions := [new_ActionConfig "fail_az" "azchaosaws.ec2.actions" "fail_az"
       {[ "az" := az;
          "dry_run" := args_get args "dry_run" (JBool false);
          "failure_type" := args_get args "failure_type" (JStr "network");
          "state_path" := args_get args "state_path" (JStr "./fail_az.ec2.json") ]}] in
  let rollbacks := [new_ActionConfig "recover_az" "azchaosaws.ec2.actions" "recover_az"
       {[ "state_path" := args_get args "state_path" (JStr "./fail_az.ec2.json") ]}] in
  mret (generate_experiment_json config probes actions rollbacks).

(** Writing the document and building the preview, shared by all
    generators: [msg] is the tool-specific head of the message. *)
Definition write_and_preview (experiment : json) (output_file : json) (msg : string)
  : M world (list json) :=
  open_write output_file (dumps experiment) ≫= λ _,
  mret [text_item (msg +:+ py_str output_file +:+ nl +:+ nl +:+
                   "Experiment preview:" +:+ nl +:+ dumps experiment)].

Definition generate_az_failure_experiment (args : gmap string json)
  : M world (list json) :=
  experiment ← lift (az_failure_document args);
  write_and_preview experiment
    (args_get args "output_file" (JStr "./az-failure-experiment.json"))
    "Generated AZ failure experiment: ".

Definition asg_az_failure_document (args : gmap string json) : result json :=
  t ← subscript args "title";
  az ← subscript args "az";
  config ← new_ExperimentConfig t ("ASG AZ failure test for " +:+ py_str az)
             (args_get args "aws_region" (JStr "us-east-1"));
  let probes := health_check_probes args in
  let actions := [new_ActionConfig "fail_asg_az" "azchaosaws.asg.actions" "fail_az"
       {[ "az" := az;
          "dry_run" := args_get args "dry_run" (JBool false);
          "tags" := args_get args "asg_tags"
                      (JList [JObj {[ "Key" := JStr "AZ_FAILURE";
                                      "Value" := JStr "True" ]}]);
          "state_path" := args_get args "state_path" (JStr "./fail_az.asg.json") ]}] in
  let rollbacks := [new_ActionConfig "recover_asg_az" "azchaosaws.asg.actions" "recover_az"
       {[ "state_path" := args_get args "state_path" (JStr "./fail_az.asg.json") ]}] in
  mret (generate_experiment_json config probes actions rollbacks).

Definition generate_asg_az_failure_experiment (args : gmap string json)
  : M world (list json) :=
  experiment ← lift (asg_az_failure_document args);
  write_and_preview experiment
    (args_get args "output_file" (JStr "./asg-az-failure-experiment.json"))
    "Generated ASG AZ failure experiment: ".

(** [if args.get(k): action_args[k] = args[k]]. *)
Definition copy_if_truthy (args : gmap string json) (k : string)
    (action_args : gmap string json) : gmap string json :=
  if truthy (args_get args k JNull) then <[k := args_get args k JNull]> action_args
  else action_args.

Definition ec2_actions_document (args : gmap string json) : result json :=
  t ← subscript args "title";
  ty ← subscript args "action_type";
  config ← new_ExperimentConfig t ("EC2 " +:+ py_str ty +:+ " experiment")
             (args_get args "aws_region" (JStr "us-east-1"));
  let action_args :=
    copy_if_truthy args "az"
      (copy_if_truthy args "filters"
         (copy_if_truthy args "instance_ids" ∅)) in
  name ← validate_str "ActionConfig" "name" ty;
  let actions := [new_ActionConfig name "chaosaws.ec2.actions" name action_args] in
  mret (generate_experiment_json config [] actions []).

Definition generate_ec2_actions_experiment (args : gmap string json)
  : M world (list json) :=
  experiment ← lift (ec2_actions_document args);
  ty ← lift (subscript args "action_type");
  write_and_preview experiment
    (args_get args "output_file" (JStr "./ec2-chaos-experiment.json"))
    ("Generated EC2 " +:+ py_str ty +:+ " experiment: ").

(** The meta fields the generic generator keeps out of the step. *)
Definition meta_fields : list string := ["title"; "output_file"; "aws_region"].

Definition generic_document (args : gmap string json) (module func : string)
  : result json :=
  t ← subscript args "title";
  config ← new_ExperimentConfig t (func +:+ " experiment")
             (args_get args "aws_region" (JStr "us-east-1"));
  let action_args := filter (λ kv : string * json, kv.1 ∉ meta_fields) args in
  let actions := [new_ActionConfig func module func action_args] in
  mret (generate_experiment_json config [] actions []).

Definition generate_generic_experiment (args : gmap string json) (module func : string)
  : M world (list json) :=
  experiment ← lift (generic_document args module func);
  write_and_preview experiment
    (args_get args "output_file" (JStr ("./" +:+ func +:+ "-experiment.json")))
    ("Generated " +:+ func +:+ " experiment: ").

(** The shell commands of the SSM stress step. *)
Definition stress_commands (args : gmap string json) (stress_type : string)
  : list string :=
  if String.eqb stress_type "cpu" then
    ["stress --cpu " +:+ py_str (args_get args "cpu_cores" (JInt 2)) +:+
     " --timeout " +:+ py_str (args_get args "duration_seconds" (JInt 300)) +:+ "s"]
  else if String.eqb stress_type "disk" then
    let size_mb := args_get args "size_mb" (JInt 1024) in
    let duration := args_get args "duration_seconds" (JInt 600) in
    let path := args_get args "path" (JStr "/tmp") in
    ["dd if=/dev/zero of=" +:+ py_str path +:+ "/chaos_fill bs=1M count=" +:+ py_str size_mb;
     "sleep " +:+ py_str duration;
     "rm -f " +:+ py_str path +:+ "/chaos_fill"]
  else ["echo 'Unknown stress type'"].

Definition ssm_stress_document (args : gmap string json) (stress_type : string)
  : result json :=
  t ← subscript args "title";
  config ← new_ExperimentConfig t ("SSM " +:+ stress_type +:+ " stress experiment")
             (args_get args "aws_region" (JStr "us-east-1"));
  let commands := stress_commands args stress_type in
  ids ← subscript args "instance_ids";
  let actions := [new_ActionConfig ("ssm_" +:+ stress_type +:+ "_stress")
       "chaosaws.ssm.actions" "send_command"
       {[ "instance_ids" := ids;
          "document_name" := JStr "AWS-RunShellScript";
          "parameters" := JObj {[ "commands" := JList (JStr <$> commands) ]} ]}] in
  mret (generate_experiment_json config [] actions []).

Definition generate_ssm_stress_experiment (args : gmap string json) (stress_type : string)
  : M world (list json) :=
  experiment ← lift (ssm_stress_document args stress_type);
  write_and_preview experiment
    (args_get args "output_file"
       (JStr ("./ssm-" +:+ stress_type +:+ "-stress-experiment.json")))
    ("Generated SSM " +:+ stress_type +:+ " stress experiment: ").

(** ** Running, validating and rolling back *)

(** [args.get("working_directory", os.getcwd())]. *)
Definition working_directory (args : gmap string json) : M world json :=
  d ← os_getcwd;
  mret (args_get args "working_directory" (JStr d)).

Definition run_experiment (args : gmap string json) : M world (list json) :=
  experiment_file ← lift (subscript args "experiment_file");
  found ← os_path_exists experiment_file;
  if negb found then
    mret [text_item ("Error: Experiment file not found: " +:+ py_str experiment_file)]
  else
    let cmd := [JStr "chaos"; JStr "run"; experiment_file] in
    let cmd := if truthy (args_get args "journal_path" JNull)
               then cmd ++ [JStr "--journal-path"; args_get args "journal_path" JNull]
               else cmd in
    cwd ← working_directory args;
    try_except
      (result ← subprocess_run cmd (Some cwd) 3600;
       let '(returncode, stdout, stderr) := result in
       mret [text_item ("Exit code: " +:+ pretty returncode +:+ nl +:+ nl +:+
                        "STDOUT:" +:+ nl +:+ stdout +:+ nl +:+ nl +:+
                        "STDERR:" +:+ nl +:+ stderr)])
      (λ e, match e with
            | TimeoutExpired _ _ =>
                mret [text_item "Error: Experiment execution timed out after 1 hour"]
            | _ => mret [text_item ("Error running experiment: " +:+ str_exn e)]
            end).

Definition validate_experiment (args : gmap string json) : M world (list json) :=
  experiment_file ← lift (subscript args "experiment_file");
  found ← os_path_exists experiment_file;
  if negb found then
    mret [text_item ("Error: Experiment file not found: " +:+ py_str experiment_file)]
  else
    try_except
      (result ← subprocess_run [JStr "chaos"; JStr "validate"; experiment_file] None 60;
       let '(returncode, stdout, stderr) := result in
       mret [text_item ("Validation result: " +:+
                        (if (returncode =? 0)%Z then "PASSED" else "FAILED") +:+
                        nl +:+ nl +:+ stdout +:+ nl +:+ stderr)])
      (λ e, mret [text_item ("Error validating experiment: " +:+ str_exn e)]).

(** [sub in v]: substring search on a string. The state files that
    reach this test are strings, [os.path.exists] having refused the
    rest. *)
Definition contains (sub : string) (v : json) : result bool :=
  match v with
  | JStr s => Ok (str_in sub s)
  | _ => Raise (TypeError "argument is not a string")
  end.

(** The module the state file name selects; [None] is the [else]
    branch. *)
Definition rollback_module (state_file : json) : result (option string) :=
  ec2 ← contains "ec2" state_file;
  if ec2 : bool then mret (Some "azchaosaws.ec2.actions")
  else
    asg ← contains "asg" state_file;
    if asg : bool then mret (Some "azchaosaws.asg.actions")
    else mret None.

Definition rollback_experiment (module : string) (state_file : json) : json :=
  JObj {[ "version" := JStr "1.0.0";
          "title" := JStr ("Rollback from " +:+ py_str state_file);
          "description" := JStr "Automated rollback";
          "method" := JList [
            JObj {[ "type" := JStr "action";
                    "name" := JStr "recover_az";
                    "provider" := JObj {[ "type" := JStr "python";
                                          "module" := JStr module;
                                          "func" := JStr "recover_az";
                                          "arguments" :=
                                            JObj {[ "state_path" := state_file ]} ]} ]} ] ]}.

(** [if s: results.append(prefix + s)]. *)
Definition append_if_nonempty (prefix s : string) : M (world * list string) unit :=
  if String.eqb s EmptyString then mret tt else append (prefix +:+ s).

(** The body of the [for state_file in state_files] loop, on a system
    that writes the temporary file; [rollback_one_io] below is the body
    with a temporary file that may fail. *)
Definition rollback_one (cwd : json) (state_file : json) : M (world * list string) unit :=
  found ← in_world (os_path_exists state_file);
  if negb found then
    append ("Warning: State file not found: " +:+ py_str state_file)
  else
    try_except
      (module ← lift (rollback_module state_file);
       match module with
       | None => append ("Warning: Unknown state file type: " +:+ py_str state_file)
       | Some module =>
         temp_file ← in_world
           (named_temporary_file (dumps (rollback_experiment module state_file)));
         try_finally
           (result ← in_world
              (subprocess_run [JStr "chaos"; JStr "run"; JStr temp_file] (Some cwd) 600);
            let '(returncode, stdout, stderr) := result in
            append ("Rollback from " +:+ py_str state_file +:+ ": " +:+
                    (if (returncode =? 0)%Z then "SUCCESS" else "FAILED")) ≫= λ _,
            append_if_nonempty "Output: " stdout ≫= λ _,
            append_if_nonempty "Errors: " stderr)
           (in_world (os_unlink temp_file))
       end)
      (λ e, append ("Error rolling back " +:+ py_str state_file +:+ ": " +:+ str_exn e)).

(** The items a [for] loop draws from a JSON value: the elements of a
    list, the characters of a string (one item per byte of the model's
    strings, so per character for ASCII text), the keys of a dict. A
    Python dict yields its keys in insertion order, which a [gmap] does
    not keep: the keys come in the map's own order, and the theorems on
    batches are stated for lists. *)
Definition py_iter (v : json) : result (list json) :=
  match v with
  | JList l => Ok l
  | JStr s => Ok ((λ c, JStr (String c EmptyString)) <$> String.list_ascii_of_string s)
  | JObj m => Ok (JStr <$> (map_to_list m).*1)
  | _ => Raise (TypeError "object is not iterable")
  end.

(** Running a handler body with a fresh local [results] list and
    handing the list to [finish]. *)
Definition with_results {A} (body : M (world * list string) unit)
    (finish : list string → A) : M world A :=
  λ w, match body (w, []) with
       | (Ok _, (w', results)) => (Ok (finish results), w')
       | (Raise e, (w', _)) => (Raise e, w')
       end.

Definition rollback_from_state (args : gmap string json) : M world (list json) :=
  state_files ← lift (subscript args "state_files");
  cwd ← working_directory args;
  items ← lift (py_iter state_files);
  with_results (for_each items (rollback_one cwd))
               (λ results, [text_item (join nl results)]).

(** ** Rolling back when the temporary file may fail *)

Section fallible_temporary_file.

(** Whether the temporary file, with the given content, gets written. *)
Variable temp_io : string → world → temp_outcome.

(** The block that writes the temporary file, which may also fail:
    before the file exists, or after, and then the file stays, for
    nothing removes it. *)
Definition named_temporary_file_io (content : string) : M world string :=
  λ w, let t := temp_name w in
       match temp_io content w with
       | TempWritten =>
           (Ok t, mkWorld (<[t := content]> (files w)) (getcwd w) (calls w)
                          (temps w ++ [t]))
       | TempRefused e => (Raise e, w)
       | TempTorn partial e =>
           (Raise e, mkWorld (<[t := partial]> (files w)) (getcwd w) (calls w)
                             (temps w ++ [t]))
       end.

(** The body of the loop with every step as fallible as it is: the
    temporary file is created and written inside the outer [try] and
    before the inner one, so that its failure is reported by the
    [except] clause and no [finally] runs. *)
Definition rollback_one_io (cwd : json) (state_file : json)
  : M (world * list string) unit :=
  found ← in_world (os_path_exists state_file);
  if negb found then
    append ("Warning: State file not found: " +:+ py_str state_file)
  else
    try_except
      (module ← lift (rollback_module state_file);
       match module with
       | None => append ("Warning: Unknown state file type: " +:+ py_str state_file)
       | Some module =>
         temp_file ← in_world
           (named_temporary_file_io (dumps (rollback_experiment module state_file)));
         try_finally
           (result ← in_world
              (subprocess_run [JStr "chaos"; JStr "run"; JStr temp_file] (Some cwd) 600);
            let '(returncode, stdout, stderr) := result in
            append ("Rollback from " +:+ py_str state_file +:+ ": " +:+
                    (if (returncode =? 0)%Z then "SUCCESS" else "FAILED")) ≫= λ _,
            append_if_nonempty "Output: " stdout ≫= λ _,
            append_if_nonempty "Errors: " stderr)
           (in_world (os_unlink temp_file))
       end)
      (λ e, append ("Error rolling back " +:+ py_str state_file +:+ ": " +:+ str_exn e)).

Definition rollback_from_state_io (args : gmap string json) : M world (list json) :=
  state_files ← lift (subscript args "state_files");
  cwd ← working_directory args;
  items ← lift (py_iter state_files);
  with_results (for_each items (rollback_one_io cwd))
               (λ results, [text_item (join nl results)]).

End fallible_temporary_file.

(** ** call_tool *)

Definition call_tool (name : string) (arguments : gmap string json)
  : M world (list json) :=
  if String.eqb name "chaos_generate_az_failure_experiment" then
    generate_az_failure_experiment arguments
  else if String.eqb name "chaos_generate_asg_az_failure_experiment" then
    generate_asg_az_failure_experiment arguments
  else if String.eqb name "chaos_isolate_az_network" then
    generate_generic_experiment arguments "azchaosaws.ec2.actions" "isolate_az_network"
  else if String.eqb name "chaos_simulate_az_partition" then
    generate_generic_experiment arguments "azchaosaws.ec2.actions" "simulate_az_partition"
  else if String.eqb name "chaos_stop_instances" then
    generate_generic_experiment arguments "chaosaws.ec2.actions" "stop_instances"
  else if String.eqb name "chaos_terminate_instances" then
    generate_generic_experiment arguments "chaosaws.ec2.actions" "terminate_instances"
  else if String.eqb name "chaos_reboot_instances" then
    generate_generic_experiment arguments "chaosaws.ec2.actions" "reboot_instances"
  else if String.eqb name "chaos_detach_volumes" then
    generate_generic_experiment arguments "chaosaws.ec2.actions" "detach_volumes"
  else if String.eqb name "chaos_suspend_asg_processes" then
    generate_generic_experiment arguments "chaosaws.asg.actions" "suspend_processes"
  else if String.eqb name "chaos_terminate_random_instances" then
    generate_generic_experiment arguments "chaosaws.asg.actions" "terminate_random_instances"
  else if String.eqb name "chaos_ssm_send_command" then
    generate_generic_experiment arguments "chaosaws.ssm.actions" "send_command"
  else if String.eqb name "chaos_ssm_stress_cpu" then
    generate_ssm_stress_experiment arguments "cpu"
  else if String.eqb name "chaos_ssm_fill_disk" then
    generate_ssm_stress_experiment arguments "disk"
  else if String.eqb name "chaos_ssm_kill_process" then
    generate_generic_experiment arguments "chaosaws.ssm.actions" "kill_process"
  else if String.eqb name "chaos_modify_security_groups" then
    generate_generic_experiment arguments "chaosaws.ec2.actions" "modify_security_groups"
  else if String.eqb name "chaos_simulate_network_latency" then
    generate_generic_experiment arguments "chaosaws.ec2.actions" "simulate_network_latency"
  else if String.eqb name "chaos_reboot_db_instance" then
    generate_generic_experiment arguments "chaosaws.rds.actions" "reboot_db_instance"
  else if String.eqb name "chaos_failover_db_cluster" then
    generate_generic_experiment arguments "chaosaws.rds.actions" "failover_db_cluster"
  else if String.eqb name "chaos_deregister_targets" then
    generate_generic_experiment arguments "chaosaws.elbv2.actions" "deregister_targets"
  else if String.eqb name "chaos_generate_ec2_actions_experiment" then
    generate_ec2_actions_experiment arguments
  else if String.eqb name "chaos_run_experiment" then
    run_experiment arguments
  else if String.eqb name "chaos_validate_experiment" then
    validate_experiment arguments
  else if String.eqb name "chaos_rollback_from_state" then
    rollback_from_state arguments
  else
    lift (Raise (ValueError ("Unknown tool: " +:+ name))).

(** Modelled from the spec: the tool-call boundary, which is not in the
    repository's sources. [call_tool] is registered through
    [@server.call_tool()], a decorator of the [mcp] package the server
    imports; by the spec's error design, what a handler lets escape is
    caught at the call boundary and converted to a textual error result.
    The caller is answered with the handler's content or, when the
    handler raises, with an error result carrying [str(e)]. The checks
    the package may run on the arguments before the handler is called
    are no part of this definition. *)
Inductive reply : Type :=
  | Content (items : list json)
  | ErrorResult (text : string).

Definition served_call_tool (name : string) (arguments : gmap string json)
  : world → reply * world :=
  λ w, match call_tool name arguments w with
       | (Ok items, w') => (Content items, w')
       | (Raise e, w') => (ErrorResult (str_exn e), w')
       end.

(** ** Vocabulary of the statements

    Definitions the theorems below are stated with; none of them is
    part of the server. *)

(** An optional string argument: absent, or a string. *)
Definition opt_str (args : gmap string json) (k : string) : Prop :=
  args !! k = None ∨ ∃ s, args !! k = Some (JStr s).

(** The probe the claim describes: an HTTP GET on [url] expecting 200. *)
Definition http_probe (url : json) : ProbeConfig :=
  mkProbeConfig "health_check" "probe" "chaoslib.provider.http" "get"
    {[ "url" := url; "expected_status" := JInt 200 ]} (JBool true).

(** The command strings of a document's first method step. *)
Definition commands_of (doc : json) : option (list json) :=
  steps ← method_of doc;
  step ← steps !! 0%nat;
  a ← read_action step;
  parameters ← action_arguments a !! "parameters";
  get "commands" parameters ≫= as_list.

(** The world in which the [chaos run] of a rollback starts: the
    temporary experiment file has been written. *)
Definition staged (module p : string) (w : world) : world :=
  mkWorld (<[temp_name w := dumps (rollback_experiment module (JStr p))]> (files w))
          (getcwd w) (calls w) (temps w ++ [temp_name w]).

Definition rollback_call (cwd : json) (w : world) : call :=
  mkCall [JStr "chaos"; JStr "run"; JStr (temp_name w)] (Some cwd) 600.

(** The world an attempted rollback leaves: the call is logged, the
    files are those the command left, minus the temporary file. *)
Definition attempted_world (cwd : json) (module p : string) (w : world) : world :=
  mkWorld (delete (temp_name w)
             (os_run (rollback_call cwd w) (staged module p w)).2)
          (getcwd w)
          (calls w ++ [(rollback_call cwd w, files (staged module p w))])
          (temps w ++ [temp_name w]).

(** What processing one existing or missing state file amounts to:
    the entries it adds to [results] and the world it leaves. *)
Inductive file_outcome (cwd : json) (p : string) (w : world)
  : list string → world → Prop :=
  | outcome_missing :
      files w !! p = None →
      file_outcome cwd p w ["Warning: State file not found: " +:+ p] w
  | outcome_unknown :
      is_Some (files w !! p) →
      str_in "ec2" p = false → str_in "asg" p = false →
      file_outcome cwd p w ["Warning: Unknown state file type: " +:+ p] w
  | outcome_attempted module e es :
      is_Some (files w !! p) →
      str_in "ec2" p || str_in "asg" p = true →
      module = (if str_in "ec2" p then "azchaosaws.ec2.actions"
                else "azchaosaws.asg.actions") →
      file_outcome cwd p w (e :: es) (attempted_world cwd module p w).


(** The module a rollback document names in its step. *)
Definition routed_module (doc : json) : option string :=
  steps ← method_of doc;
  step ← steps !! 0%nat;
  a ← read_action step;
  Some (action_module a).

(** The command line [run_experiment] builds. *)
Definition run_cmd (args : gmap string json) (p : string) : list json :=
  if truthy (args_get args "journal_path" JNull)
  then [JStr "chaos"; JStr "run"; JStr p] ++
       [JStr "--journal-path"; args_get args "journal_path" JNull]
  else [JStr "chaos"; JStr "run"; JStr p].

Definition run_call (args : gmap string json) (p : string) (w : world) : call :=
  mkCall (run_cmd args p) (Some (args_get args "working_directory" (JStr (getcwd w)))) 3600.

(** The tools that run the command line instead of generating. *)
Definition execution_tools : list string :=
  ["chaos_run_experiment"; "chaos_validate_experiment"; "chaos_rollback_from_state"].

(** The tools with a generator of their own; the rest of the generation
    tools share the generic generator. *)
Definition specialised_generators : list string :=
  ["chaos_generate_az_failure_experiment";
   "chaos_generate_asg_az_failure_experiment";
   "chaos_generate_ec2_actions_experiment";
   "chaos_ssm_stress_cpu";
   "chaos_ssm_fill_disk"].

(** Reading a whole document back: the metadata and the three ordered
    sections. *)
Definition read_config (doc : json) : option ExperimentConfig :=
  t ← get "title" doc ≫= as_str;
  d ← get "description" doc ≫= as_str;
  c ← get "configuration" doc;
  r ← get "aws_region" c ≫= as_str;
  ts ← get "tags" doc ≫= as_list;
  ts' ← mapM as_str ts;
  Some (mkExperimentConfig t d r ts').

Definition read_experiment (doc : json)
  : option (ExperimentConfig * list ProbeConfig * list ActionConfig * list ActionConfig) :=
  c ← read_config doc;
  ps ← probes_of doc ≫= mapM read_probe;
  ms ← method_of doc ≫= mapM read_action;
  rs ← rollbacks_of doc ≫= mapM read_action;
  Some (c, ps, ms, rs).

(** A document with exactly one method step. *)
Definition one_step_document (doc : json) : Prop :=
  ∃ config probes action rollbacks,
    doc = generate_experiment_json config probes [action] rollbacks.

(** What a generation tool called on [args] in the world [w] may leave
    behind. It runs no command and asks for no temporary file. When it
    returns: one written file, holding a one-step document, and one text
    item showing the path and the very text written. When it raises for
    a field that is missing or is no string ([KeyError],
    [ValidationError]): nothing at all. What an exception of the write
    itself leaves is not said. *)
Definition generated (args : gmap string json) (w : world)
    (r : result (list json) * world) : Prop :=
  calls r.2 = calls w ∧
  temps r.2 = temps w ∧
  match r.1 with
  | Ok items =>
      ∃ doc out msg,
        items = [text_item (msg +:+ out +:+ nl +:+ nl +:+
                            "Experiment preview:" +:+ nl +:+ dumps doc)] ∧
        r.2 = mkWorld (<[out := dumps doc]> (files w)) (getcwd w) (calls w) (temps w) ∧
        (∀ o, args !! "output_file" = Some (JStr o) → out = o) ∧
        one_step_document doc
  | Raise (KeyError _) | Raise (ValidationError _ _) => r.2 = w
  | Raise _ => True
  end.

(** The metadata of a document built from [args]: the title supplied,
    the region supplied or [us-east-1], no tags. *)
Definition header_from (args : gmap string json) (doc : json) : Prop :=
  ∃ t d r,
    args !! "title" = Some (JStr t) ∧
    args_get args "aws_region" (JStr "us-east-1") = JStr r ∧
    read_config doc = Some (mkExperimentConfig t d r []) ∧
    get "version" doc = Some (JStr "1.0.0").

(** The call [validate_experiment] makes for the file [p]. *)
Definition validate_call (p : string) : call :=
  mkCall [JStr "chaos"; JStr "validate"; JStr p] None 60.

(** The world a handler leaves after the one call [c] it made from [w]:
    the files are those the command left. *)
Definition after_call (c : call) (w : world) : world :=
  mkWorld (os_run c w).2 (getcwd w) (calls w ++ [(c, files w)]) (temps w).

(** The world a failed write of the temporary file leaves: the file is
    there, holding what reached the disk, and nothing was run. *)
Definition torn (partial : string) (w : world) : world :=
  mkWorld (<[temp_name w := partial]> (files w)) (getcwd w) (calls w)
          (temps w ++ [temp_name w]).

(** An entry of the report that speaks of the state file [p]. *)
Definition reports_on (p e : string) : Prop :=
  e = "Warning: State file not found: " +:+ p ∨
  e = "Warning: Unknown state file type: " +:+ p ∨
  (∃ verdict, e = "Rollback from " +:+ p +:+ ": " +:+ verdict) ∨
  (∃ cause, e = "Error rolling back " +:+ p +:+ ": " +:+ cause).

(** A logged call that is the rollback of the state file [p]: a
    [chaos run], in the directory [cwd] and with a timeout of 600
    seconds, of a file other than [p] that held, when the command
    started, the rollback document of [p] for the module its name
    selects; [p] was on disk too. *)
Definition rollback_run (cwd : json) (p : string)
    (logged : call * gmap string string) : Prop :=
  ∃ t module,
    logged.1 = mkCall [JStr "chaos"; JStr "run"; JStr t] (Some cwd) 600 ∧
    t ≠ p ∧
    str_in "ec2" p || str_in "asg" p = true ∧
    module = (if str_in "ec2" p then "azchaosaws.ec2.actions"
              else "azchaosaws.asg.actions") ∧
    logged.2 !! t = Some (dumps (rollback_experiment module (JStr p))) ∧
    is_Some (logged.2 !! p).

(** What one state file of a batch leaves in the report and in the log
    of commands: at least one entry, the first of which names the file,
    and at most one command, which is its rollback. *)
Definition step_trace (cwd : json) (p : string) (entries : list string)
    (new : list (call * gmap string string)) : Prop :=
  (∃ e es, entries = e :: es ∧ reports_on p e) ∧
  (new = [] ∨ ∃ logged, new = [logged] ∧ rollback_run cwd p logged).

(** The exception the server raises itself, for an unknown tool name.
    The constructor [ValueError] stands for that [raise] alone: what
    Python derives from [ValueError] elsewhere is another constructor
    here ([ValidationError]). Computations that never raise it are
    quiet. *)
Definition is_dispatch_error (e : exn) : bool :=
  match e with
  | ValueError _ => true
  | _ => false
  end.

Definition rquiet {A} (r : result A) : Prop :=
  ∀ e, r = Raise e → is_dispatch_error e = false.

Definition quiet {S A} (m : M S A) : Prop :=
  ∀ s e, (m s).1 = Raise e → is_dispatch_error e = false.

(** The [state_path] argument a rendered step carries. *)
Definition state_path_of (entry : json) : option json :=
  a ← read_action entry;
  action_arguments a !! "state_path".

(** The only arguments the EC2-actions generator hands on. *)
Definition ec2_selectors : list string := ["instance_ids"; "filters"; "az"].

(** The tools whose generator, left without [output_file], writes where
    the schema says. *)
Definition tools_writing_as_advertised : list string :=
  ["chaos_generate_az_failure_experiment";
   "chaos_generate_asg_az_failure_experiment";
   "chaos_generate_ec2_actions_experiment";
   "chaos_ssm_stress_cpu"].

(** What an attempted rollback of the state file [p] reports for the
    outcome of its command [cmd]. *)
Definition rollback_report (p : string) (cmd : list json) (o : outcome) : list string :=
  match o with
  | Completed rc out err =>
      ["Rollback from " +:+ p +:+ ": " +:+
       (if (rc =? 0)%Z then "SUCCESS" else "FAILED")] ++
      (if String.eqb out EmptyString then [] else ["Output: " +:+ out]) ++
      (if String.eqb err EmptyString then [] else ["Errors: " +:+ err])
  | Expired =>
      ["Error rolling back " +:+ p +:+ ": " +:+ str_exn (TimeoutExpired cmd 600)]
  | Failed e =>
      ["Error rolling back " +:+ p +:+ ": " +:+ str_exn e]
  end.

(** ** Lemmas on the document assembler *)

Lemma read_action_entry (a : ActionConfig) : read_action (action_entry a) = Some a.
Proof. destruct a. reflexivity. Qed.

Lemma read_probe_entry (p : ProbeConfig) : read_probe (probe_entry p) = Some p.
Proof. destruct p. reflexivity. Qed.

Lemma method_of_generate config probes actions rollbacks :
  method_of (generate_experiment_json config probes actions rollbacks)
  = Some (action_entry <$> actions).
Proof. reflexivity. Qed.

Lemma rollbacks_of_generate config probes actions rollbacks :
  rollbacks_of (generate_experiment_json config probes actions rollbacks)
  = Some (action_entry <$> rollbacks).
Proof. reflexivity. Qed.

Lemma probes_of_generate config probes actions rollbacks :
  probes_of (generate_experiment_json config probes actions rollbacks)
  = Some (probe_entry <$> probes).
Proof. reflexivity. Qed.

Lemma read_back_nth {A} (entry : A → json) (read : json → option A) (l : list A) :
  (∀ x, read (entry x) = Some x) →
  ∀ i, (entry <$> l) !! i ≫= read = l !! i.
Proof.
  intros Hread i. rewrite list_lookup_fmap.
  destruct (l !! i) as [x|]; simpl; [apply Hread | reflexivity].
Qed.

(** C1. For every config, probes, actions and rollbacks, the document of
    [generate_experiment_json] has a [method] list, a [rollbacks] list
    and a steady-state [probes] list as long as the inputs, and at every
    index the entry read back is the input at that index: the three
    sections keep the input order. *)
Theorem generate_experiment_json_keeps_order
    (config : ExperimentConfig) (probes : list ProbeConfig)
    (actions rollbacks : list ActionConfig) :
  let doc := generate_experiment_json config probes actions rollbacks in
  (∃ ms, method_of doc = Some ms ∧ length ms = length actions ∧
         ∀ i, ms !! i ≫= read_action = actions !! i) ∧
  (∃ rs, rollbacks_of doc = Some rs ∧ length rs = length rollbacks ∧
         ∀ i, rs !! i ≫= read_action = rollbacks !! i) ∧
  (∃ ps, probes_of doc = Some ps ∧ length ps = length probes ∧
         ∀ i, ps !! i ≫= read_probe = probes !! i).
Proof.
  intros doc. subst doc. split; [|split].
  - exists (action_entry <$> actions).
    rewrite method_of_generate, length_fmap. split; [done|split; [done|]].
    apply read_back_nth, read_action_entry.
  - exists (action_entry <$> rollbacks).
    rewrite rollbacks_of_generate, length_fmap. split; [done|split; [done|]].
    apply read_back_nth, read_action_entry.
  - exists (probe_entry <$> probes).
    rewrite probes_of_generate, length_fmap. split; [done|split; [done|]].
    apply read_back_nth, read_probe_entry.
Qed.

(** ** The generic generator *)

Lemma args_get_opt_str args k d :
  opt_str args k → ∃ s, args_get args k (JStr d) = JStr s.
Proof.
  unfold args_get. intros [-> | [s ->]]; simpl; eauto.
Qed.

Lemma filter_meta_fields (args : gmap string json) :
  filter (λ kv : string * json, kv.1 ∉ meta_fields) args
  = delete "title" (delete "output_file" (delete "aws_region" args)).
Proof.
  apply map_eq. intros k. apply option_eq. intros v.
  rewrite map_lookup_filter_Some, !lookup_delete_Some. simpl.
  unfold meta_fields. rewrite !not_elem_of_cons.
  split; [intros (Hv & Ht & Ho & Hr & _); auto|].
  intros (Ht & Ho & Hr & Hv). repeat split; auto. apply not_elem_of_nil.
Qed.

Lemma generic_document_ok args module func t :
  args !! "title" = Some (JStr t) →
  opt_str args "aws_region" →
  ∃ r, args_get args "aws_region" (JStr "us-east-1") = JStr r ∧
       generic_document args module func
       = Ok (generate_experiment_json
               (mkExperimentConfig t (func +:+ " experiment") r [])
               []
               [new_ActionConfig func module func
                  (filter (λ kv : string * json, kv.1 ∉ meta_fields) args)]
               []).
Proof.
  intros Ht Hr. destruct (args_get_opt_str _ _ "us-east-1" Hr) as [r Hr'].
  exists r. split; [done|].
  unfold generic_document, subscript. rewrite Ht. simpl.
  rewrite Hr'. reflexivity.
Qed.

Lemma write_and_preview_str experiment p msg w :
  write_and_preview experiment (JStr p) msg w
  = (Ok [text_item (msg +:+ p +:+ nl +:+ nl +:+ "Experiment preview:" +:+ nl +:+
                    dumps experiment)],
     mkWorld (<[p := dumps experiment]> (files w)) (getcwd w) (calls w) (temps w)).
Proof. reflexivity. Qed.

(** C2. Whenever the generic generator has a string title (and region
    and output path absent or strings) it writes a document whose sole
    method step carries the input mapping with exactly the keys
    [title], [output_file] and [aws_region] deleted; on the arguments
    [{title, output_file, aws_region, instance_ids: ["i-1","i-2"],
    force: true}] with target [("m", "f")] the step's arguments are
    [{instance_ids: ["i-1","i-2"], force: true}]. *)
Theorem generic_step_arguments_exclude_meta :
  (∀ (args : gmap string json) (module func t : string) (w : world),
     args !! "title" = Some (JStr t) →
     opt_str args "aws_region" →
     opt_str args "output_file" →
     ∃ doc step out preview,
       generate_generic_experiment args module func w
       = (Ok [text_item preview],
          mkWorld (<[out := dumps doc]> (files w)) (getcwd w) (calls w) (temps w)) ∧
       generic_document args module func = Ok doc ∧
       method_of doc = Some [step] ∧
       read_action step
       = Some (mkActionConfig func "action" module func
                 (delete "title" (delete "output_file" (delete "aws_region" args)))) ∧
       ∀ k, k ∉ meta_fields →
            (delete "title" (delete "output_file" (delete "aws_region" args))) !! k
            = args !! k) ∧
  (let args : gmap string json :=
     {[ "title" := JStr "Stop two instances";
        "output_file" := JStr "./stop.json";
        "aws_region" := JStr "eu-west-1";
        "instance_ids" := JList [JStr "i-1"; JStr "i-2"];
        "force" := JBool true ]} in
   ∃ doc step,
     generic_document args "m" "f" = Ok doc ∧
     method_of doc = Some [step] ∧
     action_arguments <$> read_action step
     = Some {[ "instance_ids" := JList [JStr "i-1"; JStr "i-2"];
               "force" := JBool true ]}).
Proof.
  split.
  - intros args module func t w Ht Hr Ho.
    destruct (generic_document_ok args module func t Ht Hr) as (r & _ & Hdoc).
    destruct (args_get_opt_str _ _ ("./" +:+ func +:+ "-experiment.json") Ho)
      as [out Hout].
    eexists _, _, out, _. split; [|split; [exact Hdoc|split; [reflexivity|split]]].
    + unfold generate_generic_experiment. unfold mbind at 1, M_bind, lift.
      rewrite Hdoc, Hout. apply write_and_preview_str.
    + rewrite read_action_entry. unfold new_ActionConfig.
      by rewrite filter_meta_fields.
    + intros k Hk. unfold meta_fields in Hk.
      rewrite !not_elem_of_cons in Hk. destruct Hk as (Ht' & Ho' & Hr' & _).
      by rewrite !lookup_delete_ne.
  - eexists _, _. split; [reflexivity|]. split; [reflexivity|].
    vm_compute. reflexivity.
Qed.

(** ** The AZ generators and the health-check probe *)

Lemma health_check_probes_absent args :
  args !! "health_check_url" = None → health_check_probes args = [].
Proof. unfold health_check_probes, args_get. by intros ->. Qed.

Lemma health_check_probes_falsy args u :
  args !! "health_check_url" = Some u → truthy u = false →
  health_check_probes args = [].
Proof. unfold health_check_probes, args_get. intros ->. simpl. by intros ->. Qed.

Lemma health_check_probes_truthy args u :
  args !! "health_check_url" = Some u → truthy u = true →
  health_check_probes args = [http_probe u].
Proof. unfold health_check_probes, args_get. intros ->. simpl. by intros ->. Qed.

Lemma az_failure_document_ok args t az :
  args !! "title" = Some (JStr t) → args !! "az" = Some az →
  opt_str args "aws_region" →
  ∃ config actions rollbacks,
    az_failure_document args
    = Ok (generate_experiment_json config (health_check_probes args) actions rollbacks).
Proof.
  intros Ht Ha Hr. destruct (args_get_opt_str _ _ "us-east-1" Hr) as [r Hr'].
  unfold az_failure_document, subscript. rewrite Ht, Ha. simpl.
  rewrite Hr'. simpl. eauto.
Qed.

Lemma asg_az_failure_document_ok args t az :
  args !! "title" = Some (JStr t) → args !! "az" = Some az →
  opt_str args "aws_region" →
  ∃ config actions rollbacks,
    asg_az_failure_document args
    = Ok (generate_experiment_json config (health_check_probes args) actions rollbacks).
Proof.
  intros Ht Ha Hr. destruct (args_get_opt_str _ _ "us-east-1" Hr) as [r Hr'].
  unfold asg_az_failure_document, subscript. rewrite Ht, Ha. simpl.
  rewrite Hr'. simpl. eauto.
Qed.

(** What a generator leaves on disk once its document is built. *)
Lemma generator_writes_document (document : result json) args default_out msg doc w :
  document = Ok doc →
  opt_str args "output_file" →
  ∃ out, args_get args "output_file" (JStr default_out) = JStr out ∧
    (lift document ≫= λ experiment,
       write_and_preview experiment (args_get args "output_file" (JStr default_out)) msg) w
    = (Ok [text_item (msg +:+ out +:+ nl +:+ nl +:+ "Experiment preview:" +:+ nl +:+
                      dumps doc)],
       mkWorld (<[out := dumps doc]> (files w)) (getcwd w) (calls w) (temps w)).
Proof.
  intros -> Ho. destruct (args_get_opt_str _ _ default_out Ho) as [out Hout].
  exists out. split; [done|]. unfold mbind at 1, M_bind, lift. rewrite Hout.
  apply write_and_preview_str.
Qed.

(** C3, as amended. For every call of the AZ-failure or the
    ASG-AZ-failure generator (string title, an [az], region and output
    path absent or strings) the document is written to the output path,
    and its steady-state probe list is empty when [health_check_url] is
    omitted or falsy (empty string, null), and holds exactly the one
    HTTP-get probe on the supplied URL with expected status 200 when the
    URL is truthy. *)
Theorem health_check_probe_iff_truthy_url
    (args : gmap string json) (t : string) (az : json) (w : world) :
  args !! "title" = Some (JStr t) →
  args !! "az" = Some az →
  opt_str args "aws_region" →
  opt_str args "output_file" →
  ∃ doc1 doc2 out1 out2,
    az_failure_document args = Ok doc1 ∧
    asg_az_failure_document args = Ok doc2 ∧
    files (generate_az_failure_experiment args w).2 !! out1 = Some (dumps doc1) ∧
    files (generate_asg_az_failure_experiment args w).2 !! out2 = Some (dumps doc2) ∧
    (args !! "health_check_url" = None →
       probes_of doc1 = Some [] ∧ probes_of doc2 = Some []) ∧
    (∀ u, args !! "health_check_url" = Some u → truthy u = false →
       probes_of doc1 = Some [] ∧ probes_of doc2 = Some []) ∧
    (∀ u, args !! "health_check_url" = Some u → truthy u = true →
       ∃ p, probes_of doc1 = Some [p] ∧ probes_of doc2 = Some [p] ∧
            read_probe p = Some (http_probe u)).
Proof.
  intros Ht Ha Hr Ho.
  destruct (az_failure_document_ok args t az Ht Ha Hr) as (c1 & a1 & r1 & H1).
  destruct (asg_az_failure_document_ok args t az Ht Ha Hr) as (c2 & a2 & r2 & H2).
  destruct (generator_writes_document _ args "./az-failure-experiment.json"
              "Generated AZ failure experiment: " _ w H1 Ho) as (out1 & _ & Hw1).
  destruct (generator_writes_document _ args "./asg-az-failure-experiment.json"
              "Generated ASG AZ failure experiment: " _ w H2 Ho) as (out2 & _ & Hw2).
  eexists _, _, out1, out2.
  split; [exact H1|]. split; [exact H2|].
  split. { unfold generate_az_failure_experiment. rewrite Hw1. simpl.
           apply lookup_insert_eq. }
  split. { unfold generate_asg_az_failure_experiment. rewrite Hw2. simpl.
           apply lookup_insert_eq. }
  rewrite !probes_of_generate. split; [|split].
  - intros Hn. by rewrite (health_check_probes_absent _ Hn).
  - intros u Hu Hf. by rewrite (health_check_probes_falsy _ _ Hu Hf).
  - intros u Hu Htr. rewrite (health_check_probes_truthy _ _ Hu Htr).
    exists (probe_entry (http_probe u)). split; [done|]. split; [done|].
    apply read_probe_entry.
Qed.

(** ** The SSM stress generator *)

Lemma ssm_stress_document_ok args stress_type t ids :
  args !! "title" = Some (JStr t) → args !! "instance_ids" = Some ids →
  opt_str args "aws_region" →
  ∃ doc, ssm_stress_document args stress_type = Ok doc ∧
         (∃ step, method_of doc = Some [step]) ∧
         commands_of doc = Some (JStr <$> stress_commands args stress_type).
Proof.
  intros Ht Hi Hr. destruct (args_get_opt_str _ _ "us-east-1" Hr) as [r Hr'].
  unfold ssm_stress_document, subscript. rewrite Ht, Hi. simpl.
  rewrite Hr'. simpl. eexists. split; [reflexivity|]. split; [eexists; reflexivity|].
  reflexivity.
Qed.

(** C4. Called with stress type [cpu], [cpu_cores=4] and
    [duration_seconds=600], the SSM stress generator (which [call_tool]
    runs for [chaos_ssm_stress_cpu]) writes and previews a document
    whose sole step carries exactly one command, which contains
    [stress --cpu 4] and [--timeout 600s]; with stress type [disk]
    ([chaos_ssm_fill_disk]), [size_mb=2048], [duration_seconds=300] and
    [path="/var/tmp"] the step carries exactly three: a [dd] fill naming
    [/var/tmp/chaos_fill] and [count=2048], then [sleep 300], then
    [rm -f /var/tmp/chaos_fill]. *)
Theorem ssm_stress_command_strings
    (args : gmap string json) (t : string) (ids : json) (w : world) :
  args !! "title" = Some (JStr t) →
  args !! "instance_ids" = Some ids →
  opt_str args "aws_region" →
  opt_str args "output_file" →
  (args !! "cpu_cores" = Some (JInt 4) →
   args !! "duration_seconds" = Some (JInt 600) →
   ∃ doc step c out,
     call_tool "chaos_ssm_stress_cpu" args w
     = generate_ssm_stress_experiment args "cpu" w ∧
     generate_ssm_stress_experiment args "cpu" w
     = (Ok [text_item ("Generated SSM cpu stress experiment: " +:+ out +:+ nl +:+ nl +:+
                       "Experiment preview:" +:+ nl +:+ dumps doc)],
        mkWorld (<[out := dumps doc]> (files w)) (getcwd w) (calls w) (temps w)) ∧
     ssm_stress_document args "cpu" = Ok doc ∧
     method_of doc = Some [step] ∧
     commands_of doc = Some [JStr c] ∧
     str_in "stress --cpu 4" c = true ∧
     str_in "--timeout 600s" c = true) ∧
  (args !! "size_mb" = Some (JInt 2048) →
   args !! "duration_seconds" = Some (JInt 300) →
   args !! "path" = Some (JStr "/var/tmp") →
   ∃ doc step fill out,
     call_tool "chaos_ssm_fill_disk" args w
     = generate_ssm_stress_experiment args "disk" w ∧
     generate_ssm_stress_experiment args "disk" w
     = (Ok [text_item ("Generated SSM disk stress experiment: " +:+ out +:+ nl +:+ nl +:+
                       "Experiment preview:" +:+ nl +:+ dumps doc)],
        mkWorld (<[out := dumps doc]> (files w)) (getcwd w) (calls w) (temps w)) ∧
     ssm_stress_document args "disk" = Ok doc ∧
     method_of doc = Some [step] ∧
     commands_of doc
     = Some [JStr fill; JStr "sleep 300"; JStr "rm -f /var/tmp/chaos_fill"] ∧
     str_in "dd " fill = true ∧
     str_in "/var/tmp/chaos_fill" fill = true ∧
     str_in "count=2048" fill = true).
Proof.
  intros Ht Hi Hr Ho. split.
  - intros Hc Hd.
    destruct (ssm_stress_document_ok args "cpu" t ids Ht Hi Hr)
      as (doc & Hdoc & [step Hstep] & Hcmd).
    destruct (generator_writes_document _ args "./ssm-cpu-stress-experiment.json"
                "Generated SSM cpu stress experiment: " doc w Hdoc Ho)
      as (out & _ & Hwrite).
    exists doc, step, "stress --cpu 4 --timeout 600s", out.
    split; [reflexivity|]. split; [exact Hwrite|].
    split; [done|]. split; [done|]. split; [|split; reflexivity].
    rewrite Hcmd. unfold stress_commands, args_get. rewrite Hc, Hd. reflexivity.
  - intros Hs Hd Hp.
    destruct (ssm_stress_document_ok args "disk" t ids Ht Hi Hr)
      as (doc & Hdoc & [step Hstep] & Hcmd).
    destruct (generator_writes_document _ args "./ssm-disk-stress-experiment.json"
                "Generated SSM disk stress experiment: " doc w Hdoc Ho)
      as (out & _ & Hwrite).
    exists doc, step, "dd if=/dev/zero of=/var/tmp/chaos_fill bs=1M count=2048", out.
    split; [reflexivity|]. split; [exact Hwrite|].
    split; [done|]. split; [done|]. split; [|repeat split; reflexivity].
    rewrite Hcmd. unfold stress_commands, args_get. rewrite Hs, Hd, Hp. reflexivity.
Qed.

(** ** One state file of a rollback *)

Lemma rollback_module_str p :
  rollback_module (JStr p)
  = Ok (if str_in "ec2" p then Some "azchaosaws.ec2.actions"
        else if str_in "asg" p then Some "azchaosaws.asg.actions"
        else None).
Proof.
  unfold rollback_module. simpl.
  destruct (str_in "ec2" p); [done|]. by destruct (str_in "asg" p).
Qed.

Lemma rollback_one_missing cwd p w rs :
  files w !! p = None →
  rollback_one cwd (JStr p) (w, rs)
  = (Ok tt, (w, rs ++ ["Warning: State file not found: " +:+ p])).
Proof.
  intros Hp. unfold rollback_one, mbind, M_bind, in_world. simpl.
  rewrite Hp. rewrite bool_decide_eq_false_2 by (by intros [? ?]). reflexivity.
Qed.

Lemma rollback_one_unknown cwd p w rs :
  is_Some (files w !! p) →
  str_in "ec2" p = false → str_in "asg" p = false →
  rollback_one cwd (JStr p) (w, rs)
  = (Ok tt, (w, rs ++ ["Warning: Unknown state file type: " +:+ p])).
Proof.
  intros Hp He Ha. unfold rollback_one, mbind at 1, M_bind at 1, in_world. simpl.
  rewrite bool_decide_eq_true_2 by done. simpl.
  unfold try_except, mbind, M_bind, lift. rewrite rollback_module_str, He, Ha.
  reflexivity.
Qed.

Lemma rollback_one_attempted cwd p w rs module :
  is_Some (files w !! p) →
  (if str_in "ec2" p then Some "azchaosaws.ec2.actions"
   else if str_in "asg" p then Some "azchaosaws.asg.actions"
   else None) = Some module →
  ∃ e es,
    rollback_one cwd (JStr p) (w, rs)
    = (Ok tt, (attempted_world cwd module p w, rs ++ e :: es)).
Proof.
  intros Hp Hm. unfold rollback_one, mbind at 1, M_bind at 1, in_world. simpl.
  rewrite bool_decide_eq_true_2 by done. simpl.
  unfold try_except, mbind at 1, M_bind at 1, lift.
  rewrite rollback_module_str, Hm.
  unfold mbind at 1, M_bind at 1, in_world, named_temporary_file. simpl.
  unfold try_finally, mbind at 1, M_bind at 1, in_world, subprocess_run. simpl.
  fold (staged module p w). fold (rollback_call cwd w).
  unfold attempted_world, os_unlink.
  destruct (os_run (rollback_call cwd w) (staged module p w)) as [o fs] eqn:Hrun.
  simpl.
  assert (Hgone : fs !! temp_name w = None → delete (temp_name w) fs = fs)
    by apply delete_id.
  destruct o as [rc out err| |e]; simpl.
  - unfold mbind, M_bind, append, append_if_nonempty. simpl.
    destruct (String.eqb out EmptyString), (String.eqb err EmptyString); simpl;
      destruct (fs !! temp_name w) eqn:Ht; simpl;
      rewrite ?(Hgone eq_refl), <- ?app_assoc; simpl; eauto.
  - destruct (fs !! temp_name w) eqn:Ht; simpl;
      rewrite ?(Hgone eq_refl); unfold append; simpl; eauto.
  - destruct (fs !! temp_name w) eqn:Ht; simpl;
      rewrite ?(Hgone eq_refl); unfold append; simpl; eauto.
Qed.

Lemma rollback_one_outcome cwd p w rs :
  ∃ es w', rollback_one cwd (JStr p) (w, rs) = (Ok tt, (w', rs ++ es)) ∧
           file_outcome cwd p w es w'.
Proof.
  destruct (files w !! p) as [c|] eqn:Hp.
  - assert (Hs : is_Some (files w !! p)) by (rewrite Hp; eauto).
    destruct (str_in "ec2" p) eqn:He; [|destruct (str_in "asg" p) eqn:Ha].
    + destruct (rollback_one_attempted cwd p w rs "azchaosaws.ec2.actions" Hs)
        as (e & es & Hrun); [by rewrite He|].
      exists (e :: es), (attempted_world cwd "azchaosaws.ec2.actions" p w).
      split; [done|]. constructor; [done| |]; by rewrite He.
    + destruct (rollback_one_attempted cwd p w rs "azchaosaws.asg.actions" Hs)
        as (e & es & Hrun); [by rewrite He, Ha|].
      exists (e :: es), (attempted_world cwd "azchaosaws.asg.actions" p w).
      split; [done|]. constructor; [done| |]; by rewrite He, ?Ha.
    + eexists _, w. split; [by apply rollback_one_unknown|]. by constructor.
  - eexists _, w. split; [by apply rollback_one_missing|]. by constructor.
Qed.

Lemma for_each_cons {S A} (x : A) (l : list A) (body : A → M S unit) (s : S) :
  for_each (x :: l) body s
  = match body x s with
    | (Ok _, s') => for_each l body s'
    | (Raise e, s') => (Raise e, s')
    end.
Proof. reflexivity. Qed.



(** ** Routing by state file name *)

(** C10. For an existing state file path, a name containing [ec2] is
    rolled back through [azchaosaws.ec2.actions], whether or not it also
    contains [asg]; a name containing [asg] and not [ec2] through
    [azchaosaws.asg.actions]; any other name is skipped with the
    unknown-type warning and nothing is run. The document handed to
    [chaos run] names the chosen module. *)
Theorem rollback_routing_prefers_ec2
    (cwd : json) (p : string) (w : world) (rs : list string) :
  is_Some (files w !! p) →
  (str_in "ec2" p = true →
     (rollback_one cwd (JStr p) (w, rs)).2.1
     = attempted_world cwd "azchaosaws.ec2.actions" p w) ∧
  (str_in "ec2" p = false → str_in "asg" p = true →
     (rollback_one cwd (JStr p) (w, rs)).2.1
     = attempted_world cwd "azchaosaws.asg.actions" p w) ∧
  (str_in "ec2" p = false → str_in "asg" p = false →
     rollback_one cwd (JStr p) (w, rs)
     = (Ok tt, (w, rs ++ ["Warning: Unknown state file type: " +:+ p]))) ∧
  (∀ module,
     last (calls (attempted_world cwd module p w))
     = Some (mkCall [JStr "chaos"; JStr "run"; JStr (temp_name w)] (Some cwd) 600,
             <[temp_name w := dumps (rollback_experiment module (JStr p))]> (files w)) ∧
     routed_module (rollback_experiment module (JStr p)) = Some module).
Proof.
  intros Hs. split; [|split; [|split]].
  - intros He.
    destruct (rollback_one_attempted cwd p w rs "azchaosaws.ec2.actions" Hs)
      as (e & es & ->); [by rewrite He|done].
  - intros He Ha.
    destruct (rollback_one_attempted cwd p w rs "azchaosaws.asg.actions" Hs)
      as (e & es & ->); [by rewrite He, Ha|done].
  - intros He Ha. by apply rollback_one_unknown.
  - intros module. split; [|reflexivity].
    unfold attempted_world. simpl. by rewrite last_snoc.
Qed.

(** ** Running and validating *)

Lemma run_cmd_head args p : take 3 (run_cmd args p) = [JStr "chaos"; JStr "run"; JStr p].
Proof. unfold run_cmd. by destruct (truthy _). Qed.

Lemma run_experiment_missing args p w :
  args !! "experiment_file" = Some (JStr p) → files w !! p = None →
  run_experiment args w
  = (Ok [text_item ("Error: Experiment file not found: " +:+ p)], w).
Proof.
  intros Ha Hp. unfold run_experiment, subscript. rewrite Ha.
  unfold mbind, M_bind, lift. simpl.
  rewrite Hp, bool_decide_eq_false_2 by (by intros [? ?]). reflexivity.
Qed.

Lemma validate_experiment_missing args p w :
  args !! "experiment_file" = Some (JStr p) → files w !! p = None →
  validate_experiment args w
  = (Ok [text_item ("Error: Experiment file not found: " +:+ p)], w).
Proof.
  intros Ha Hp. unfold validate_experiment, subscript. rewrite Ha.
  unfold mbind, M_bind, lift. simpl.
  rewrite Hp, bool_decide_eq_false_2 by (by intros [? ?]). reflexivity.
Qed.

Lemma run_experiment_found args p w :
  args !! "experiment_file" = Some (JStr p) → is_Some (files w !! p) →
  ∃ r,
    run_experiment args w
    = (Ok r, mkWorld (os_run (run_call args p w) w).2 (getcwd w)
                     (calls w ++ [(run_call args p w, files w)]) (temps w)) ∧
    ((os_run (run_call args p w) w).1 = Expired →
     r = [text_item "Error: Experiment execution timed out after 1 hour"]).
Proof.
  intros Ha Hp. unfold run_experiment, subscript. rewrite Ha.
  unfold mbind at 1, M_bind at 1, lift.
  unfold mbind at 1, M_bind at 1. simpl.
  rewrite bool_decide_eq_true_2 by done. simpl.
  unfold mbind at 1, M_bind at 1, working_directory, os_getcwd. simpl.
  unfold try_except, mbind, M_bind, subprocess_run. simpl.
  repeat match goal with
         | |- context [os_run ?c w] =>
             progress replace c with (run_call args p w)
               by (unfold run_call, run_cmd; destruct (truthy _); reflexivity)
         | |- context [(?c, files w)] =>
             progress replace c with (run_call args p w)
               by (unfold run_call, run_cmd; destruct (truthy _); reflexivity)
         end.
  destruct (os_run (run_call args p w) w) as [[rc out err| |e] fs]; simpl.
  - eexists. split; [reflexivity|]. discriminate.
  - eexists. split; [reflexivity|]. done.
  - destruct e; (eexists; split; [reflexivity|discriminate]).
Qed.

Lemma validate_experiment_total args p w :
  args !! "experiment_file" = Some (JStr p) →
  ∃ r w', validate_experiment args w = (Ok r, w').
Proof.
  intros Ha. destruct (files w !! p) as [c|] eqn:Hp.
  - unfold validate_experiment, subscript. rewrite Ha.
    unfold mbind at 1, M_bind at 1, lift.
    unfold mbind at 1, M_bind at 1. simpl.
    rewrite Hp, bool_decide_eq_true_2 by eauto. simpl.
    unfold try_except, mbind, M_bind, subprocess_run. simpl.
    destruct (os_run _ w) as [[rc out err| |e] fs]; simpl; eauto.
  - rewrite (validate_experiment_missing args p w Ha Hp). eauto.
Qed.

(** C6. For every string path: when the file does not exist, [run] and
    [validate] each return the not-found text and leave the world,
    subprocess log included, untouched; when it exists, [run] makes one
    [chaos run] call with a timeout of 3600 seconds and, should that
    call time out, returns the timed-out text; in every case both
    handlers return a result and raise nothing. *)
Theorem run_validate_expected_failures
    (args : gmap string json) (p : string) (w : world) :
  args !! "experiment_file" = Some (JStr p) →
  (files w !! p = None →
     run_experiment args w
     = (Ok [text_item ("Error: Experiment file not found: " +:+ p)], w) ∧
     validate_experiment args w
     = (Ok [text_item ("Error: Experiment file not found: " +:+ p)], w)) ∧
  (is_Some (files w !! p) →
     ∃ c, calls (run_experiment args w).2 = calls w ++ [(c, files w)] ∧
          take 3 (call_cmd c) = [JStr "chaos"; JStr "run"; JStr p] ∧
          call_timeout c = 3600%Z ∧
          ((os_run c w).1 = Expired →
           (run_experiment args w).1
           = Ok [text_item "Error: Experiment execution timed out after 1 hour"])) ∧
  (∃ r w', run_experiment args w = (Ok r, w')) ∧
  (∃ r w', validate_experiment args w = (Ok r, w')).
Proof.
  intros Ha. split; [|split; [|split]].
  - intros Hp. split.
    + by apply run_experiment_missing.
    + by apply validate_experiment_missing.
  - intros Hp. destruct (run_experiment_found args p w Ha Hp) as (r & Hrun & Hexp).
    exists (run_call args p w). rewrite Hrun. simpl.
    split; [done|]. split; [apply run_cmd_head|]. split; [done|].
    intros Ht. by rewrite (Hexp Ht).
  - destruct (files w !! p) as [c|] eqn:Hp.
    + destruct (run_experiment_found args p w Ha) as (r & Hrun & _);
        [rewrite Hp; eauto|]. eauto.
    + rewrite (run_experiment_missing args p w Ha Hp). eauto.
  - by apply (validate_experiment_total args p).
Qed.

(** ** Unknown tools *)

Lemma str_in_refl s : str_in s s = true.
Proof.
  assert (String.prefix s s = true) as Hp.
  { induction s as [|c s IH]; simpl; [done|].
    destruct (Ascii.ascii_dec c c); [done|congruence]. }
  destruct s; simpl in *; by rewrite ?Hp.
Qed.

Lemma str_in_append pre s : str_in s (pre +:+ s) = true.
Proof.
  induction pre as [|c pre IH]; simpl.
  - apply str_in_refl.
  - rewrite IH. apply orb_true_r.
Qed.

(** C7. For every name outside the catalog of [list_tools], [call_tool]
    raises [ValueError("Unknown tool: <name>")], a message containing
    the name; the caller is answered with an error result made of that
    exception; and the world is left as it was: no file is written and
    no subprocess is run. *)
Theorem call_tool_unknown_name
    (name : string) (arguments : gmap string json) (w : world) :
  name ∉ tool_names →
  call_tool name arguments w = (Raise (ValueError ("Unknown tool: " +:+ name)), w) ∧
  str_in name ("Unknown tool: " +:+ name) = true ∧
  served_call_tool name arguments w
  = (ErrorResult (str_exn (ValueError ("Unknown tool: " +:+ name))), w).
Proof.
  intros Hn.
  enough (call_tool name arguments w
          = (Raise (ValueError ("Unknown tool: " +:+ name)), w)) as Hcall.
  { split; [done|]. split; [apply str_in_append|].
    unfold served_call_tool. by rewrite Hcall. }
  unfold tool_names, list_tools in Hn. simpl in Hn.
  rewrite !not_elem_of_cons in Hn.
  unfold call_tool.
  repeat match goal with
         | |- context [String.eqb name ?s] =>
             rewrite (proj2 (String.eqb_neq name s)) by (intuition congruence)
         end.
  reflexivity.
Qed.

(** ** The temporary rollback file *)

Lemma rollback_one_world cwd sf w rs :
  (rollback_one cwd sf (w, rs)).2.1 = w ∨
  ∃ p module, sf = JStr p ∧
              (rollback_one cwd sf (w, rs)).2.1 = attempted_world cwd module p w.
Proof.
  destruct sf as [| | |p| |]; try (left; reflexivity).
  destruct (rollback_one_outcome cwd p w rs) as (es & w' & -> & Hout). simpl.
  destruct Hout; eauto.
Qed.

Lemma for_each_invariant {S A} (P : S → Prop) (body : A → M S unit) (l : list A) :
  (∀ x s, P s → P (body x s).2) →
  ∀ s, P s → P (for_each l body s).2.
Proof.
  intros Hbody. induction l as [|x l IH]; intros s Hs; [done|].
  rewrite for_each_cons. specialize (Hbody x s Hs).
  destruct (body x s) as [[[]|e] s']; simpl in *; auto.
Qed.

Lemma rollback_one_io_existing temp_io cwd p w rs module :
  is_Some (files w !! p) →
  (if str_in "ec2" p then Some "azchaosaws.ec2.actions"
   else if str_in "asg" p then Some "azchaosaws.asg.actions"
   else None) = Some module →
  rollback_one_io temp_io cwd (JStr p) (w, rs)
  = match temp_io (dumps (rollback_experiment module (JStr p))) w with
    | TempWritten => rollback_one cwd (JStr p) (w, rs)
    | TempRefused e =>
        (Ok tt, (w, rs ++ ["Error rolling back " +:+ p +:+ ": " +:+ str_exn e]))
    | TempTorn partial e =>
        (Ok tt, (torn partial w,
                 rs ++ ["Error rolling back " +:+ p +:+ ": " +:+ str_exn e]))
    end.
Proof.
  intros Hp Hm. unfold rollback_one_io, rollback_one.
  rewrite rollback_module_str, Hm.
  unfold mbind, M_bind, in_world, try_except, lift, named_temporary_file_io,
    named_temporary_file, os_path_exists, torn, append. simpl.
  rewrite bool_decide_eq_true_2 by done. simpl.
  destruct (temp_io _ w); reflexivity.
Qed.

(** Where no temporary file is written, the two bodies of the loop do
    the same. *)
Lemma rollback_one_io_cases temp_io cwd sf w rs :
  rollback_one_io temp_io cwd sf (w, rs) = rollback_one cwd sf (w, rs) ∨
  ∃ p module e,
    sf = JStr p ∧ is_Some (files w !! p) ∧
    (if str_in "ec2" p then Some "azchaosaws.ec2.actions"
     else if str_in "asg" p then Some "azchaosaws.asg.actions"
     else None) = Some module ∧
    ((temp_io (dumps (rollback_experiment module (JStr p))) w = TempRefused e ∧
      rollback_one_io temp_io cwd sf (w, rs)
      = (Ok tt, (w, rs ++ ["Error rolling back " +:+ p +:+ ": " +:+ str_exn e]))) ∨
     (∃ partial,
        temp_io (dumps (rollback_experiment module (JStr p))) w = TempTorn partial e ∧
        rollback_one_io temp_io cwd sf (w, rs)
        = (Ok tt, (torn partial w,
                   rs ++ ["Error rolling back " +:+ p +:+ ": " +:+ str_exn e])))).
Proof.
  destruct sf as [| | |p| |]; try (left; reflexivity).
  destruct (files w !! p) as [c|] eqn:Hp.
  - assert (Hs : is_Some (files w !! p)) by (rewrite Hp; eauto).
    destruct (if str_in "ec2" p then Some "azchaosaws.ec2.actions"
              else if str_in "asg" p then Some "azchaosaws.asg.actions"
              else None) as [module|] eqn:Hm.
    + rewrite (rollback_one_io_existing temp_io cwd p w rs module Hs Hm).
      destruct (temp_io _ w) as [|e|partial e] eqn:Hio; [by left|right..].
      * exists p, module, e. eauto 10.
      * exists p, module, e. eauto 10.
    + left. unfold rollback_one_io, rollback_one.
      by rewrite rollback_module_str, Hm.
  - left. unfold rollback_one_io, rollback_one, mbind, M_bind, in_world. simpl.
    rewrite Hp. by rewrite bool_decide_eq_false_2 by (by intros [? ?]).
Qed.

Lemma rollback_one_io_world temp_io cwd sf w rs :
  (rollback_one_io temp_io cwd sf (w, rs)).2.1 = w ∨
  ∃ p module,
    sf = JStr p ∧
    ((rollback_one_io temp_io cwd sf (w, rs)).2.1 = attempted_world cwd module p w ∨
     ∃ partial e,
       temp_io (dumps (rollback_experiment module (JStr p))) w = TempTorn partial e ∧
       (rollback_one_io temp_io cwd sf (w, rs)).2.1 = torn partial w).
Proof.
  destruct (rollback_one_io_cases temp_io cwd sf w rs)
    as [->|(p & module & e & -> & _ & _ & [[_ ->]|(partial & Hio & ->)])].
  - destruct (rollback_one_world cwd sf w rs) as [?|(p & module & ? & ?)]; eauto 10.
  - by left.
  - right. exists p, module. eauto 10.
Qed.

Lemma rollback_from_state_io_world temp_io args w :
  (rollback_from_state_io temp_io args w).2 = w ∨
  ∃ items,
    (rollback_from_state_io temp_io args w).2
    = (for_each items
         (rollback_one_io temp_io (args_get args "working_directory" (JStr (getcwd w))))
         (w, [])).2.1.
Proof.
  unfold rollback_from_state_io, subscript.
  destruct (args !! "state_files") as [v|]; [|by left].
  unfold mbind, M_bind, lift, working_directory, os_getcwd, mret, M_ret. simpl.
  destruct (py_iter v) as [items|e]; [|by left].
  right. exists items. unfold with_results.
  by destruct (for_each items _ (w, [])) as [[[]|e] [w' rs]].
Qed.

(** X15. What becomes of the temporary file of one state file, which
    exists and names [ec2] or [asg]. If the file gets written, the
    command is run on it and, whatever the command does (complete, time
    out, raise), the file is gone when the processing ends. If
    [tempfile] raises before creating it, nothing changes. If the write
    fails once the file exists, no command is run, the failure is
    reported as [Error rolling back <file>: <str(e)>], and the file
    stays on disk. *)
Theorem rollback_temp_file_fate
    (temp_io : string → world → temp_outcome)
    (cwd : json) (p module : string) (w : world) (rs : list string) :
  is_Some (files w !! p) →
  (if str_in "ec2" p then Some "azchaosaws.ec2.actions"
   else if str_in "asg" p then Some "azchaosaws.asg.actions"
   else None) = Some module →
  let after := (rollback_one_io temp_io cwd (JStr p) (w, rs)).2 in
  match temp_io (dumps (rollback_experiment module (JStr p))) w with
  | TempWritten =>
      files after.1 !! temp_name w = None ∧
      calls after.1 = calls w ++ [(rollback_call cwd w, files (staged module p w))]
  | TempRefused e =>
      after = (w, rs ++ ["Error rolling back " +:+ p +:+ ": " +:+ str_exn e])
  | TempTorn partial e =>
      files after.1 = <[temp_name w := partial]> (files w) ∧
      files after.1 !! temp_name w = Some partial ∧
      calls after.1 = calls w ∧
      after.2 = rs ++ ["Error rolling back " +:+ p +:+ ": " +:+ str_exn e]
  end.
Proof.
  intros Hp Hm after. subst after.
  rewrite (rollback_one_io_existing temp_io cwd p w rs module Hp Hm).
  destruct (temp_io _ w) as [|e|partial e].
  - destruct (rollback_one_attempted cwd p w rs module Hp Hm) as (e & es & ->).
    simpl. split; [apply lookup_delete_eq|done].
  - reflexivity.
  - simpl. split; [done|]. split; [apply lookup_insert_eq|done].
Qed.

(** ** Arguments a generator cannot do without *)

Lemma generator_raises {A} (document : result json) (k : json → M world A) e w :
  document = Raise e → (lift document ≫= k) w = (Raise e, w).
Proof. by intros ->. Qed.

Lemma generic_document_no_title args module func :
  args !! "title" = None → generic_document args module func = Raise (KeyError "title").
Proof. unfold generic_document, subscript. by intros ->. Qed.

Lemma az_failure_document_missing args k :
  k ∈ ["title"; "az"] → args !! k = None → ∃ e, az_failure_document args = Raise e.
Proof.
  intros Hk Hn. unfold az_failure_document, subscript.
  destruct (args !! "title") eqn:Ht; [|simpl; eauto].
  destruct (args !! "az") eqn:Ha; [|simpl; eauto].
  elem_cases Hk; congruence.
Qed.

Lemma asg_az_failure_document_missing args k :
  k ∈ ["title"; "az"] → args !! k = None → ∃ e, asg_az_failure_document args = Raise e.
Proof.
  intros Hk Hn. unfold asg_az_failure_document, subscript.
  destruct (args !! "title") eqn:Ht; [|simpl; eauto].
  destruct (args !! "az") eqn:Ha; [|simpl; eauto].
  elem_cases Hk; congruence.
Qed.

Lemma ec2_actions_document_missing args k :
  k ∈ ["title"; "action_type"] → args !! k = None →
  ∃ e, ec2_actions_document args = Raise e.
Proof.
  intros Hk Hn. unfold ec2_actions_document, subscript.
  destruct (args !! "title") eqn:Ht; [|simpl; eauto].
  destruct (args !! "action_type") eqn:Ha; [|simpl; eauto].
  elem_cases Hk; congruence.
Qed.

Lemma ssm_stress_document_missing args stress_type k :
  k ∈ ["title"; "instance_ids"] → args !! k = None →
  ∃ e, ssm_stress_document args stress_type = Raise e.
Proof.
  intros Hk Hn. unfold ssm_stress_document, subscript.
  destruct (args !! "title") eqn:Ht; [|simpl; eauto].
  destruct (args !! "instance_ids") eqn:Ha; [elem_cases Hk; congruence|]. simpl.
  destruct (new_ExperimentConfig _ _ _); simpl; eauto.
Qed.

Lemma ec2_generator_raises args e w :
  ec2_actions_document args = Raise e →
  generate_ec2_actions_experiment args w = (Raise e, w).
Proof. intros H. unfold generate_ec2_actions_experiment. by apply generator_raises. Qed.

(** C9, as amended. For every generation tool of the catalog and every
    required field of its schema that its generator reads by subscript
    ([title] for every tool; every required field for the tools with a
    generator of their own), an argument mapping lacking the field makes
    [call_tool] raise with the world untouched: nothing is written. *)
Theorem missing_subscripted_field_writes_nothing
    (tool : Tool) (k : string) (args : gmap string json) (w : world) :
  tool ∈ list_tools →
  tool_name tool ∉ execution_tools →
  k ∈ required tool →
  k = "title" ∨ tool_name tool ∈ specialised_generators →
  args !! k = None →
  ∃ e, call_tool (tool_name tool) args w = (Raise e, w).
Proof.
  intros Hin Hgen Hk Hsub Hn.
  unfold list_tools in Hin.
  repeat (apply elem_of_cons in Hin as [->|Hin]);
    [..|by apply elem_of_nil in Hin];
    simpl in Hgen, Hk, Hsub |- *;
    try (exfalso; apply Hgen; unfold execution_tools;
         rewrite !elem_of_cons; tauto);
    unfold call_tool; simpl.
  all: try (destruct (az_failure_document_missing args k Hk Hn) as [e He];
            exists e; by apply generator_raises).
  all: try (destruct (asg_az_failure_document_missing args k Hk Hn) as [e He];
            exists e; by apply generator_raises).
  all: try (destruct (ec2_actions_document_missing args k Hk Hn) as [e He];
            exists e; by apply ec2_generator_raises).
  all: try (destruct (ssm_stress_document_missing args "cpu" k Hk Hn) as [e He];
            exists e; by apply generator_raises).
  all: try (destruct (ssm_stress_document_missing args "disk" k Hk Hn) as [e He];
            exists e; by apply generator_raises).
  all: destruct Hsub as [->|Hs];
    [|exfalso; unfold specialised_generators in Hs;
      repeat (apply elem_of_cons in Hs as [Hs|Hs]; [discriminate Hs|]);
      by apply elem_of_nil in Hs].
  all: exists (KeyError "title"); apply generator_raises;
    by apply generic_document_no_title.
Qed.

(** ** The assembler loses nothing *)

Lemma read_config_generate config probes actions rollbacks :
  read_config (generate_experiment_json config probes actions rollbacks) = Some config.
Proof.
  destruct config as [t d r ts]. unfold read_config. simpl.
  change ((mapM as_str (JStr <$> ts) ≫= λ ts', Some (mkExperimentConfig t d r ts'))
          = Some (mkExperimentConfig t d r ts)).
  by rewrite (mapM_fmap_Some as_str JStr ts) by done.
Qed.

(** X1. A document determines the inputs it was assembled from: reading
    [generate_experiment_json config probes actions rollbacks] back
    gives the four inputs again, so that two calls yielding the same
    document had the same inputs. *)
Theorem generate_experiment_json_read_back
    (config : ExperimentConfig) (probes : list ProbeConfig)
    (actions rollbacks : list ActionConfig) :
  read_experiment (generate_experiment_json config probes actions rollbacks)
  = Some (config, probes, actions, rollbacks) ∧
  ∀ config' probes' actions' rollbacks',
    generate_experiment_json config probes actions rollbacks
    = generate_experiment_json config' probes' actions' rollbacks' →
    config = config' ∧ probes = probes' ∧ actions = actions' ∧ rollbacks = rollbacks'.
Proof.
  assert (Hread : ∀ c ps ms rs,
             read_experiment (generate_experiment_json c ps ms rs)
             = Some (c, ps, ms, rs)).
  { intros c ps ms rs. unfold read_experiment.
    rewrite read_config_generate, probes_of_generate, method_of_generate,
      rollbacks_of_generate. simpl.
    rewrite (mapM_fmap_Some read_probe probe_entry ps read_probe_entry). simpl.
    rewrite !(mapM_fmap_Some read_action action_entry _ read_action_entry).
    reflexivity. }
  split; [apply Hread|].
  intros c' ps' ms' rs' Heq.
  pose proof (Hread config probes actions rollbacks) as H1.
  rewrite Heq, Hread in H1. by injection H1 as -> -> -> ->.
Qed.

(** ** What every generator builds and leaves behind *)

Lemma validate_str_ok model field v s :
  validate_str model field v = Ok s → v = JStr s.
Proof. destruct v; simpl; congruence. Qed.

Lemma result_bind_ok {A B} (r : result A) (f : A → result B) (b : B) :
  r ≫= f = Ok b → ∃ a, r = Ok a ∧ f a = Ok b.
Proof. destruct r as [a|e]; [|discriminate]. intros H. by exists a. Qed.

Lemma subscript_ok args k v : subscript args k = Ok v → args !! k = Some v.
Proof. unfold subscript. destruct (args !! k); congruence. Qed.

Lemma new_ExperimentConfig_ok t d r config :
  new_ExperimentConfig t d r = Ok config →
  ∃ t' r', t = JStr t' ∧ r = JStr r' ∧ config = mkExperimentConfig t' d r' [].
Proof.
  unfold new_ExperimentConfig.
  destruct (validate_str _ _ t) as [t'|] eqn:Ht; [|discriminate].
  destruct (validate_str _ _ r) as [r'|] eqn:Hr; [|discriminate].
  intros [= <-]. apply validate_str_ok in Ht, Hr. eauto.
Qed.

(** Opening a document builder that returned: every step it went
    through returned, with the value the next step received. *)
Ltac open_builder H :=
  repeat (let a := fresh "a" in
          let E := fresh "E" in
          apply result_bind_ok in H as (a & E & H); cbv beta zeta in H);
  unfold mret, result_ret in H;
  repeat match goal with
         | E : subscript _ _ = Ok _ |- _ => apply subscript_ok in E
         | E : validate_str _ _ _ = Ok _ |- _ => apply validate_str_ok in E
         | E : new_ExperimentConfig _ _ _ = Ok _ |- _ =>
             apply new_ExperimentConfig_ok in E as (? & ? & ? & ? & ?)
         end;
  subst.

Lemma header_from_intro args t d r probes actions rollbacks :
  args !! "title" = Some (JStr t) →
  args_get args "aws_region" (JStr "us-east-1") = JStr r →
  header_from args
    (generate_experiment_json (mkExperimentConfig t d r []) probes actions rollbacks).
Proof.
  intros Ht Hr. exists t, d, r. split; [done|]. split; [done|].
  split; [apply read_config_generate|reflexivity].
Qed.

Lemma one_step_intro config probes action rollbacks :
  one_step_document (generate_experiment_json config probes [action] rollbacks).
Proof. by eexists _, _, _, _. Qed.

Lemma generic_document_built args module func doc :
  generic_document args module func = Ok doc →
  header_from args doc ∧ one_step_document doc ∧
  probes_of doc = Some [] ∧ rollbacks_of doc = Some [].
Proof.
  unfold generic_document. intros H. open_builder H. injection H as <-.
  split; [by apply header_from_intro|]. split; [apply one_step_intro|done].
Qed.

Lemma ec2_actions_document_built args doc :
  ec2_actions_document args = Ok doc →
  header_from args doc ∧ one_step_document doc ∧
  probes_of doc = Some [] ∧ rollbacks_of doc = Some [].
Proof.
  unfold ec2_actions_document. intros H. open_builder H. injection H as <-.
  split; [by apply header_from_intro|]. split; [apply one_step_intro|done].
Qed.

Lemma ssm_stress_document_built args stress_type doc :
  ssm_stress_document args stress_type = Ok doc →
  header_from args doc ∧ one_step_document doc ∧
  probes_of doc = Some [] ∧ rollbacks_of doc = Some [].
Proof.
  unfold ssm_stress_document. intros H. open_builder H. injection H as <-.
  split; [by apply header_from_intro|]. split; [apply one_step_intro|done].
Qed.

Lemma az_failure_document_built args doc :
  az_failure_document args = Ok doc →
  header_from args doc ∧ one_step_document doc ∧
  ∃ rollback, rollbacks_of doc = Some [rollback].
Proof.
  unfold az_failure_document. intros H. open_builder H. injection H as <-.
  split; [by apply header_from_intro|]. split; [apply one_step_intro|by eexists].
Qed.

Lemma asg_az_failure_document_built args doc :
  asg_az_failure_document args = Ok doc →
  header_from args doc ∧ one_step_document doc ∧
  ∃ rollback, rollbacks_of doc = Some [rollback].
Proof.
  unfold asg_az_failure_document. intros H. open_builder H. injection H as <-.
  split; [by apply header_from_intro|]. split; [apply one_step_intro|by eexists].
Qed.

(** X3. Whatever a generator builds carries version [1.0.0], the title
    supplied, the region supplied or else [us-east-1], no tags, and
    exactly one method step. The two AZ generators add exactly one
    rollback step; the EC2-actions, generic and SSM generators add no
    probe and no rollback. *)
Theorem generated_document_header (args : gmap string json) (doc : json) :
  (az_failure_document args = Ok doc ∨ asg_az_failure_document args = Ok doc →
   header_from args doc ∧ one_step_document doc ∧
   ∃ rollback, rollbacks_of doc = Some [rollback]) ∧
  (ec2_actions_document args = Ok doc ∨
   (∃ module func, generic_document args module func = Ok doc) ∨
   (∃ stress_type, ssm_stress_document args stress_type = Ok doc) →
   header_from args doc ∧ one_step_document doc ∧
   probes_of doc = Some [] ∧ rollbacks_of doc = Some []).
Proof.
  split.
  - intros [H|H];
      [by apply az_failure_document_built|by apply asg_az_failure_document_built].
  - intros [H|[(module & func & H)|(stress_type & H)]].
    + by apply ec2_actions_document_built.
    + by apply (generic_document_built args module func).
    + by apply (ssm_stress_document_built args stress_type).
Qed.

Lemma write_and_preview_generated args experiment default_out msg w :
  one_step_document experiment →
  generated args w
    (write_and_preview experiment (args_get args "output_file" (JStr default_out)) msg w).
Proof.
  intros Hone. unfold generated.
  destruct (args_get args "output_file" (JStr default_out)) as [| | |out| |] eqn:Hout;
    try (by repeat split).
  rewrite write_and_preview_str. simpl. split; [done|]. split; [done|].
  exists experiment, out, msg. split; [done|]. split; [done|]. split; [|done].
  intros o Ho. unfold args_get in Hout. rewrite Ho in Hout. simpl in Hout. congruence.
Qed.

Lemma generator_generated (document : result json) args default_out msg w :
  (∀ doc, document = Ok doc → one_step_document doc) →
  generated args w
    ((lift document ≫= λ experiment,
        write_and_preview experiment
          (args_get args "output_file" (JStr default_out)) msg) w).
Proof.
  intros Hone. destruct document as [doc|e]; [|by destruct e].
  apply write_and_preview_generated. by apply Hone.
Qed.

Lemma ec2_generator_generated args w :
  generated args w (generate_ec2_actions_experiment args w).
Proof.
  unfold generate_ec2_actions_experiment.
  destruct (ec2_actions_document args) as [doc|e] eqn:Hdoc; [|by destruct e].
  destruct (ec2_actions_document_built args doc Hdoc) as (_ & Hone & _).
  unfold ec2_actions_document in Hdoc.
  destruct (subscript args "action_type") as [ty|e] eqn:Hty.
  - unfold mbind at 1, M_bind at 1, lift. unfold mbind at 1, M_bind at 1.
    by apply write_and_preview_generated.
  - exfalso. destruct (subscript args "title"); simpl in Hdoc; discriminate.
Qed.

(** X2. A generation tool of the catalog, given a string for
    [output_file] or none, never runs a subprocess and asks for no
    temporary file. When it returns, it has written one file and no
    other, to [output_file] when that argument is given, overwriting
    whatever was there, and it returns a single text item that shows
    the path and, after the line [Experiment preview:], the very text
    it wrote, which is a document with exactly one method step. When it
    raises [KeyError] or [ValidationError], for a field that is missing
    or is no string, it leaves every file as it found it. *)
Theorem generation_tools_write_one_file
    (name : string) (args : gmap string json) (w : world) :
  name ∈ tool_names →
  name ∉ execution_tools →
  opt_str args "output_file" →
  generated args w (call_tool name args w).
Proof.
  intros Hin Hgen _. unfold tool_names, list_tools in Hin. simpl in Hin.
  elem_cases Hin;
    try (exfalso; apply Hgen; unfold execution_tools; rewrite !elem_of_cons; tauto);
    unfold call_tool; simpl.
  all: try apply ec2_generator_generated.
  all: apply generator_generated; intros doc Hdoc.
  all: first
    [ by apply az_failure_document_built in Hdoc as (_ & ? & _)
    | by apply asg_az_failure_document_built in Hdoc as (_ & ? & _)
    | by apply generic_document_built in Hdoc as (_ & ? & _)
    | by apply ssm_stress_document_built in Hdoc as (_ & ? & _) ].
Qed.

(** ** What run and validate report *)

Lemma run_call_eq args p w :
  mkCall ([JStr "chaos"; JStr "run"; JStr p] ++
          (if truthy (args_get args "journal_path" JNull)
           then [JStr "--journal-path"; args_get args "journal_path" JNull]
           else []))
         (Some (args_get args "working_directory" (JStr (getcwd w)))) 3600
  = run_call args p w.
Proof. unfold run_call, run_cmd. by destruct (truthy _). Qed.

Lemma run_experiment_outcome args p w :
  args !! "experiment_file" = Some (JStr p) → is_Some (files w !! p) →
  run_experiment args w
  = (Ok [text_item
           match (os_run (run_call args p w) w).1 with
           | Completed rc out err =>
               "Exit code: " +:+ pretty rc +:+ nl +:+ nl +:+
               "STDOUT:" +:+ nl +:+ out +:+ nl +:+ nl +:+
               "STDERR:" +:+ nl +:+ err
           | Expired | Failed (TimeoutExpired _ _) =>
               "Error: Experiment execution timed out after 1 hour"
           | Failed e => "Error running experiment: " +:+ str_exn e
           end],
     after_call (run_call args p w) w).
Proof.
  intros Ha Hp. unfold run_experiment, subscript. rewrite Ha.
  unfold mbind at 1, M_bind at 1, lift.
  unfold mbind at 1, M_bind at 1. simpl.
  rewrite bool_decide_eq_true_2 by done. simpl.
  unfold mbind at 1, M_bind at 1, working_directory, os_getcwd. simpl.
  unfold try_except, mbind, M_bind, subprocess_run, after_call. simpl.
  repeat match goal with
         | |- context [os_run ?c w] =>
             progress replace c with (run_call args p w)
               by (unfold run_call, run_cmd; destruct (truthy _); reflexivity)
         | |- context [(?c, files w)] =>
             progress replace c with (run_call args p w)
               by (unfold run_call, run_cmd; destruct (truthy _); reflexivity)
         end.
  destruct (os_run (run_call args p w) w) as [[rc out err| |e] fs]; simpl;
    [reflexivity..|]. by destruct e.
Qed.

(** X8. Running an existing experiment file makes exactly one call:
    [chaos run <file>], followed by [--journal-path <path>] exactly when
    [journal_path] is truthy, in [working_directory] or else the current
    directory, with a timeout of 3600 seconds. A process that completes
    is reported with its exit code, output and errors whatever the exit
    code, and an exception other than a timeout as the text
    [Error running experiment: <str(e)>]; the files are left as the
    command left them. *)
Theorem run_experiment_report (args : gmap string json) (p : string) (w : world) :
  args !! "experiment_file" = Some (JStr p) →
  is_Some (files w !! p) →
  let journal := args_get args "journal_path" JNull in
  let c := mkCall ([JStr "chaos"; JStr "run"; JStr p] ++
                   (if truthy journal then [JStr "--journal-path"; journal] else []))
                  (Some (args_get args "working_directory" (JStr (getcwd w)))) 3600 in
  ∃ text,
    run_experiment args w = (Ok [text_item text], after_call c w) ∧
    (∀ rc out err, (os_run c w).1 = Completed rc out err →
       text = "Exit code: " +:+ pretty rc +:+ nl +:+ nl +:+
              "STDOUT:" +:+ nl +:+ out +:+ nl +:+ nl +:+
              "STDERR:" +:+ nl +:+ err) ∧
    (∀ e, (os_run c w).1 = Failed e → (∀ cmd t, e ≠ TimeoutExpired cmd t) →
       text = "Error running experiment: " +:+ str_exn e).
Proof.
  intros Ha Hp journal c. subst journal c. rewrite run_call_eq.
  eexists. split; [by apply run_experiment_outcome|]. split.
  - intros rc out err ->. reflexivity.
  - intros e -> Hne. destruct e; try reflexivity. by destruct (Hne cmd timeout).
Qed.

(** X7. Validating an existing experiment file makes exactly one call,
    [chaos validate <file>], with a timeout of 60 seconds and no working
    directory. The verdict is [PASSED] when the exit code is zero and
    [FAILED] otherwise; a timeout or any other exception is returned as
    the text [Error validating experiment: <str(e)>] and never raised. *)
Theorem validate_experiment_verdict (args : gmap string json) (p : string) (w : world) :
  args !! "experiment_file" = Some (JStr p) →
  is_Some (files w !! p) →
  ∃ text,
    validate_experiment args w
    = (Ok [text_item text], after_call (validate_call p) w) ∧
    (∀ rc out err, (os_run (validate_call p) w).1 = Completed rc out err →
       text = "Validation result: " +:+
              (if (rc =? 0)%Z then "PASSED" else "FAILED") +:+
              nl +:+ nl +:+ out +:+ nl +:+ err) ∧
    ((os_run (validate_call p) w).1 = Expired →
       text = "Error validating experiment: " +:+
              str_exn (TimeoutExpired [JStr "chaos"; JStr "validate"; JStr p] 60)) ∧
    (∀ e, (os_run (validate_call p) w).1 = Failed e →
       text = "Error validating experiment: " +:+ str_exn e).
Proof.
  intros Ha Hp. unfold validate_experiment, subscript. rewrite Ha.
  unfold mbind at 1, M_bind at 1, lift.
  unfold mbind at 1, M_bind at 1. simpl.
  rewrite bool_decide_eq_true_2 by done. simpl.
  unfold try_except, mbind, M_bind, subprocess_run, after_call. simpl.
  fold (validate_call p).
  destruct (os_run (validate_call p) w) as [[rc out err| |e] fs]; simpl;
    (eexists; split; [reflexivity|]);
    (split; [|split]); intros; by simplify_eq.
Qed.

(** ** What a rollback runs and what it leaves *)

Lemma rollback_one_attempted_first cwd p w rs module :
  is_Some (files w !! p) →
  (if str_in "ec2" p then Some "azchaosaws.ec2.actions"
   else if str_in "asg" p then Some "azchaosaws.asg.actions"
   else None) = Some module →
  ∃ e es,
    rollback_one cwd (JStr p) (w, rs)
    = (Ok tt, (attempted_world cwd module p w, rs ++ e :: es)) ∧
    reports_on p e.
Proof.
  intros Hp Hm. unfold rollback_one, mbind at 1, M_bind at 1, in_world. simpl.
  rewrite bool_decide_eq_true_2 by done. simpl.
  unfold try_except, mbind at 1, M_bind at 1, lift.
  rewrite rollback_module_str, Hm.
  unfold mbind at 1, M_bind at 1, in_world, named_temporary_file. simpl.
  unfold try_finally, mbind at 1, M_bind at 1, in_world, subprocess_run. simpl.
  fold (staged module p w). fold (rollback_call cwd w).
  unfold attempted_world, os_unlink, reports_on.
  destruct (os_run (rollback_call cwd w) (staged module p w)) as [o fs] eqn:Hrun.
  simpl.
  assert (Hgone : fs !! temp_name w = None → delete (temp_name w) fs = fs)
    by apply delete_id.
  destruct o as [rc out err| |e]; simpl.
  - unfold mbind, M_bind, append, append_if_nonempty. simpl.
    destruct (String.eqb out EmptyString), (String.eqb err EmptyString); simpl;
      destruct (fs !! temp_name w) eqn:Ht; simpl;
      rewrite ?(Hgone eq_refl), <- ?app_assoc; simpl;
      (eexists _, _; split; [reflexivity|]; right; right; left; eexists; reflexivity).
  - destruct (fs !! temp_name w) eqn:Ht; simpl;
      rewrite ?(Hgone eq_refl); unfold append; simpl;
      (eexists _, _; split; [reflexivity|]; right; right; right; eexists; reflexivity).
  - destruct (fs !! temp_name w) eqn:Ht; simpl;
      rewrite ?(Hgone eq_refl); unfold append; simpl;
      (eexists _, _; split; [reflexivity|]; right; right; right; eexists; reflexivity).
Qed.

Lemma rollback_one_trace cwd p w rs :
  files w !! temp_name w = None →
  ∃ entries new w',
    rollback_one cwd (JStr p) (w, rs) = (Ok tt, (w', rs ++ entries)) ∧
    step_trace cwd p entries new ∧
    calls w' = calls w ++ new.
Proof.
  intros Hfresh. destruct (files w !! p) as [c|] eqn:Hp.
  - assert (Hs : is_Some (files w !! p)) by (rewrite Hp; eauto).
    destruct (if str_in "ec2" p then Some "azchaosaws.ec2.actions"
              else if str_in "asg" p then Some "azchaosaws.asg.actions"
              else None) as [module|] eqn:Hm.
    + destruct (rollback_one_attempted_first cwd p w rs module Hs Hm)
        as (e & es & Hrun & He).
      exists (e :: es), [(rollback_call cwd w, files (staged module p w))],
             (attempted_world cwd module p w).
      split; [done|]. split; [|reflexivity]. split; [eauto|]. right.
      eexists. split; [reflexivity|]. exists (temp_name w), module.
      split; [reflexivity|]. split; [intros Heq; rewrite Heq, Hp in Hfresh; done|].
      assert (temp_name w ≠ p) as Hne
        by (intros Heq; rewrite Heq, Hp in Hfresh; done).
      unfold staged. simpl. rewrite lookup_insert_eq, lookup_insert_ne by done.
      destruct (str_in "ec2" p); [by simplify_eq|].
      destruct (str_in "asg" p); by simplify_eq.
    + exists ["Warning: Unknown state file type: " +:+ p], [], w.
      destruct (str_in "ec2" p) eqn:He; [done|].
      destruct (str_in "asg" p) eqn:Ha; [done|].
      split; [by apply rollback_one_unknown|]. split; [|by rewrite app_nil_r].
      split; [|by left]. eexists _, _. split; [reflexivity|]. right. by left.
  - exists ["Warning: State file not found: " +:+ p], [], w.
    split; [by apply rollback_one_missing|]. split; [|by rewrite app_nil_r].
    split; [|by left]. eexists _, _. split; [reflexivity|]. by left.
Qed.

Lemma rollback_one_io_trace temp_io cwd p w rs :
  files w !! temp_name w = None →
  ∃ entries new w',
    rollback_one_io temp_io cwd (JStr p) (w, rs) = (Ok tt, (w', rs ++ entries)) ∧
    step_trace cwd p entries new ∧
    calls w' = calls w ++ new.
Proof.
  intros Hfresh.
  destruct (rollback_one_io_cases temp_io cwd (JStr p) w rs)
    as [->|(p' & module & e & [= <-] & _ & _ & [[_ ->]|(partial & _ & ->)])].
  - by apply rollback_one_trace.
  - eexists _, [], w. split; [reflexivity|]. split; [|by rewrite app_nil_r].
    split; [|by left]. eexists _, _. split; [reflexivity|].
    right. right. right. eexists. reflexivity.
  - eexists _, [], _. split; [reflexivity|]. split; [|by rewrite app_nil_r].
    split; [|by left]. eexists _, _. split; [reflexivity|].
    right. right. right. eexists. reflexivity.
Qed.

Lemma for_each_rollback_io temp_io cwd (paths : list string) w rs :
  (∀ w, files w !! temp_name w = None) →
  ∃ groups news w',
    for_each (JStr <$> paths) (rollback_one_io temp_io cwd) (w, rs)
    = (Ok tt, (w', rs ++ concat groups)) ∧
    calls w' = calls w ++ concat news ∧
    Forall3 (step_trace cwd) paths groups news.
Proof.
  intros Hfresh. revert w rs. induction paths as [|p ps IH]; intros w rs.
  - exists [], [], w. simpl. rewrite !app_nil_r. repeat split. constructor.
  - destruct (rollback_one_io_trace temp_io cwd p w rs (Hfresh w))
      as (g & n & w1 & Hone & Htrace & Hcalls).
    destruct (IH w1 (rs ++ g)) as (gs & ns & w2 & Hrest & Hcalls' & Hall).
    exists (g :: gs), (n :: ns), w2.
    rewrite fmap_cons, for_each_cons, Hone, Hrest, Hcalls', Hcalls. simpl.
    rewrite <- !app_assoc. repeat split. by constructor.
Qed.

(** X9. A rollback over a list of paths, on a system whose [tempfile]
    hands out names not in use, reports every path and runs nothing but
    rollbacks. The text returned joins, path by path and in order, at
    least one entry per path, the first of which names the path (not
    found, unknown type, the verdict of its rollback, or the error that
    stopped it). The commands run are, in the same order, at most one
    per path: [chaos run] in the working directory given, with a
    timeout of 600 seconds, of a file that is not the state file and
    that held, when the command started, the rollback document of that
    path for the module its name selects. This holds whether or not the
    temporary files get written. *)
Theorem rollback_runs_only_temp_files
    (temp_io : string → world → temp_outcome)
    (args : gmap string json) (paths : list string) (w : world) :
  (∀ w, files w !! temp_name w = None) →
  args !! "state_files" = Some (JList (JStr <$> paths)) →
  ∃ groups news,
    (rollback_from_state_io temp_io args w).1
    = Ok [text_item (join nl (concat groups))] ∧
    calls (rollback_from_state_io temp_io args w).2 = calls w ++ concat news ∧
    Forall3 (step_trace (args_get args "working_directory" (JStr (getcwd w))))
            paths groups news.
Proof.
  intros Hfresh Hs.
  destruct (for_each_rollback_io temp_io
              (args_get args "working_directory" (JStr (getcwd w))) paths w [] Hfresh)
    as (groups & news & w' & Hrun & Hcalls & Hall).
  exists groups, news.
  unfold rollback_from_state_io, subscript. rewrite Hs.
  unfold mbind, M_bind, lift, working_directory, os_getcwd, mret, M_ret. simpl.
  unfold with_results. rewrite Hrun. simpl. auto.
Qed.

(** X10. When the command line leaves the files alone and [tempfile]
    hands out names not in use, a rollback changes and removes no file
    that was there, whatever its arguments and whatever the outcomes of
    the commands; and unless the write of a temporary file fails once
    the file exists, it leaves the file system exactly as it found
    it. *)
Theorem rollback_leaves_files_as_found
    (temp_io : string → world → temp_outcome) :
  (∀ c w, (os_run c w).2 = files w) →
  (∀ w, files w !! temp_name w = None) →
  ∀ (args : gmap string json) (w : world),
    files w ⊆ files (rollback_from_state_io temp_io args w).2 ∧
    ((∀ content w partial e, temp_io content w ≠ TempTorn partial e) →
     files (rollback_from_state_io temp_io args w).2 = files w).
Proof.
  intros Hrun Hfresh args w. split.
  - destruct (rollback_from_state_io_world temp_io args w) as [->|[items ->]]; [done|].
    apply (for_each_invariant (λ s : world * list string, files w ⊆ files s.1)); [|done].
    intros sf [w1 rs] Hw1. simpl in *.
    destruct (rollback_one_io_world temp_io
                (args_get args "working_directory" (JStr (getcwd w))) sf w1 rs)
      as [->|(p & module & _ & [->|(partial & e & _ & ->)])]; [done| |].
    + unfold attempted_world. simpl. rewrite Hrun. unfold staged. simpl.
      by rewrite delete_insert_id by apply Hfresh.
    + unfold torn. simpl. etrans; [exact Hw1|]. by apply insert_subseteq.
  - intros Hio.
    destruct (rollback_from_state_io_world temp_io args w) as [->|[items ->]]; [done|].
    apply (for_each_invariant (λ s : world * list string, files s.1 = files w)); [|done].
    intros sf [w1 rs] Hw1. simpl in *.
    destruct (rollback_one_io_world temp_io
                (args_get args "working_directory" (JStr (getcwd w))) sf w1 rs)
      as [->|(p & module & _ & [->|(partial & e & Htorn & _)])]; [done| |].
    + unfold attempted_world. simpl. rewrite Hrun. unfold staged. simpl.
      by rewrite delete_insert_id by apply Hfresh.
    + by destruct (Hio _ _ _ _ Htorn).
Qed.

(** ** Missing arguments of the execution tools *)

(** X11. An execution tool called without the one field its schema
    requires ([experiment_file], [state_files]) raises [KeyError] for
    that field, out of the handler, and does nothing: unlike a missing
    file, a missing argument is not turned into a text result. *)
Theorem execution_tool_missing_argument
    (tool : Tool) (k : string) (args : gmap string json) (w : world) :
  tool ∈ list_tools →
  tool_name tool ∈ execution_tools →
  k ∈ required tool →
  args !! k = None →
  call_tool (tool_name tool) args w = (Raise (KeyError k), w).
Proof.
  intros Hin Hex Hk Hn. unfold list_tools in Hin.
  elem_cases Hin; simpl in Hex, Hk |- *;
    try (exfalso; unfold execution_tools in Hex; elem_cases Hex; discriminate).
  all: elem_cases Hk; unfold call_tool; simpl.
  - unfold run_experiment, subscript. by rewrite Hn.
  - unfold validate_experiment, subscript. by rewrite Hn.
  - unfold rollback_from_state, subscript. by rewrite Hn.
Qed.

(** ** The catalog and the dispatcher agree *)

Lemma rquiet_ok {A} (a : A) : rquiet (Ok a).
Proof. intros e. discriminate. Qed.

Lemma rquiet_bind {A B} (r : result A) (f : A → result B) :
  rquiet r → (∀ a, rquiet (f a)) → rquiet (r ≫= f).
Proof.
  intros Hr Hf. destruct r as [a|e]; [apply Hf|].
  intros e' [= <-]. by apply Hr.
Qed.

Lemma rquiet_subscript args k : rquiet (subscript args k).
Proof. unfold subscript. destruct (args !! k); intros e [= <-]; done. Qed.

Lemma rquiet_validate_str model field v : rquiet (validate_str model field v).
Proof. destruct v; intros e [= <-]; done. Qed.

Lemma rquiet_new_ExperimentConfig t d r : rquiet (new_ExperimentConfig t d r).
Proof.
  unfold new_ExperimentConfig.
  destruct (validate_str _ _ t) eqn:Ht; [|intros ? [= <-]; by eapply rquiet_validate_str].
  destruct (validate_str _ _ r) eqn:Hr; [|intros ? [= <-]; by eapply rquiet_validate_str].
  apply rquiet_ok.
Qed.

Lemma quiet_ret {S A} (a : A) : quiet (mret a : M S A).
Proof. intros s e. discriminate. Qed.

Lemma quiet_lift {S A} (r : result A) : rquiet r → quiet (lift r : M S A).
Proof. intros Hr s e. apply Hr. Qed.

Lemma quiet_bind {S A B} (m : M S A) (f : A → M S B) :
  quiet m → (∀ a, quiet (f a)) → quiet (m ≫= f).
Proof.
  intros Hm Hf s e. unfold mbind, M_bind. specialize (Hm s).
  destruct (m s) as [[a|e'] s']; [apply Hf|].
  simpl in *. intros [= <-]. by apply Hm.
Qed.

Lemma quiet_try_except {S A} (body : M S A) (handler : exn → M S A) :
  (∀ e, quiet (handler e)) → quiet (try_except body handler).
Proof.
  intros Hh s e. unfold try_except.
  destruct (body s) as [[a|e'] s']; [discriminate|apply Hh].
Qed.

Lemma quiet_in_world {L A} (m : M world A) : quiet m → quiet (in_world m : M (world * L) A).
Proof.
  intros Hm [w l] e. unfold in_world. simpl. specialize (Hm w).
  destruct (m w) as [r w']. simpl in *. apply Hm.
Qed.

Lemma quiet_os_path_exists p : quiet (os_path_exists p).
Proof. destruct p; intros w e H; by simplify_eq/=. Qed.

Lemma quiet_write_and_preview experiment out msg :
  quiet (write_and_preview experiment out msg).
Proof.
  unfold write_and_preview. apply quiet_bind; [|intros; apply quiet_ret].
  destruct out; intros w e H; by simplify_eq/=.
Qed.

Lemma quiet_generator (document : result json) out msg :
  rquiet document →
  quiet (lift document ≫= λ experiment, write_and_preview experiment out msg).
Proof.
  intros Hd. apply quiet_bind; [by apply quiet_lift|].
  intros. apply quiet_write_and_preview.
Qed.

Lemma rquiet_az_failure_document args : rquiet (az_failure_document args).
Proof.
  unfold az_failure_document.
  repeat (apply rquiet_bind; [first [apply rquiet_subscript
                                    |apply rquiet_new_ExperimentConfig]|intros ?]).
  apply rquiet_ok.
Qed.

Lemma rquiet_asg_az_failure_document args : rquiet (asg_az_failure_document args).
Proof.
  unfold asg_az_failure_document.
  repeat (apply rquiet_bind; [first [apply rquiet_subscript
                                    |apply rquiet_new_ExperimentConfig]|intros ?]).
  apply rquiet_ok.
Qed.

Lemma rquiet_ec2_actions_document args : rquiet (ec2_actions_document args).
Proof.
  unfold ec2_actions_document.
  repeat (apply rquiet_bind; [first [apply rquiet_subscript
                                    |apply rquiet_new_ExperimentConfig
                                    |apply rquiet_validate_str]|intros ?]).
  apply rquiet_ok.
Qed.

Lemma rquiet_generic_document args module func :
  rquiet (generic_document args module func).
Proof.
  unfold generic_document.
  repeat (apply rquiet_bind; [first [apply rquiet_subscript
                                    |apply rquiet_new_ExperimentConfig]|intros ?]).
  apply rquiet_ok.
Qed.

Lemma rquiet_ssm_stress_document args stress_type :
  rquiet (ssm_stress_document args stress_type).
Proof.
  unfold ssm_stress_document.
  repeat (apply rquiet_bind; [first [apply rquiet_subscript
                                    |apply rquiet_new_ExperimentConfig]|intros ?]).
  apply rquiet_ok.
Qed.

Lemma quiet_working_directory args : quiet (working_directory args).
Proof. intros s e. discriminate. Qed.

Lemma quiet_run_experiment args : quiet (run_experiment args).
Proof.
  unfold run_experiment.
  apply quiet_bind; [apply quiet_lift, rquiet_subscript|]. intros file.
  apply quiet_bind; [apply quiet_os_path_exists|]. intros [|]; simpl.
  - apply quiet_bind; [apply quiet_working_directory|]. intros cwd.
    apply quiet_try_except. intros e. destruct e; apply quiet_ret.
  - apply quiet_ret.
Qed.

Lemma quiet_validate_experiment args : quiet (validate_experiment args).
Proof.
  unfold validate_experiment.
  apply quiet_bind; [apply quiet_lift, rquiet_subscript|]. intros file.
  apply quiet_bind; [apply quiet_os_path_exists|]. intros [|]; simpl.
  - apply quiet_try_except. intros e. apply quiet_ret.
  - apply quiet_ret.
Qed.

Lemma quiet_append x : quiet (append x).
Proof. intros s e. discriminate. Qed.

Lemma quiet_rollback_one cwd sf : quiet (rollback_one cwd sf).
Proof.
  unfold rollback_one.
  apply quiet_bind; [apply quiet_in_world, quiet_os_path_exists|]. intros [|]; simpl.
  - apply quiet_try_except. intros e. apply quiet_append.
  - apply quiet_append.
Qed.

Lemma quiet_for_each {S A} (l : list A) (body : A → M S unit) :
  (∀ x, quiet (body x)) → quiet (for_each l body).
Proof.
  intros Hb. induction l as [|x l IH]; simpl; [apply quiet_ret|].
  apply quiet_bind; [apply Hb|]. intros _. apply IH.
Qed.

Lemma quiet_rollback_from_state args : quiet (rollback_from_state args).
Proof.
  unfold rollback_from_state.
  apply quiet_bind; [apply quiet_lift, rquiet_subscript|]. intros v.
  apply quiet_bind; [apply quiet_working_directory|]. intros cwd.
  apply quiet_bind.
  { apply quiet_lift. destruct v; intros e H; by simplify_eq/=. }
  intros items w e. unfold with_results.
  pose proof (quiet_for_each items _ (quiet_rollback_one cwd) (w, [])) as Hq.
  destruct (for_each items _ (w, [])) as [[[]|e'] [w' rs]]; simpl in *;
    [discriminate|]. intros [= <-]. by apply Hq.
Qed.

Lemma call_tool_listed_quiet name args :
  name ∈ tool_names → quiet (call_tool name args).
Proof.
  intros Hin. unfold tool_names, list_tools in Hin. simpl in Hin.
  elem_cases Hin; unfold call_tool; simpl.
  all: first
    [ apply quiet_run_experiment
    | apply quiet_validate_experiment
    | apply quiet_rollback_from_state
    | apply quiet_generator; first
        [ apply rquiet_az_failure_document
        | apply rquiet_asg_az_failure_document
        | apply rquiet_generic_document
        | apply rquiet_ssm_stress_document ]
    | idtac ].
  unfold generate_ec2_actions_experiment.
  apply quiet_bind; [apply quiet_lift, rquiet_ec2_actions_document|]. intros doc.
  apply quiet_bind; [apply quiet_lift, rquiet_subscript|]. intros ty.
  apply quiet_write_and_preview.
Qed.

Lemma call_tool_not_listed name args w :
  name ∉ tool_names →
  call_tool name args w = (Raise (ValueError ("Unknown tool: " +:+ name)), w).
Proof.
  intros Hn. unfold tool_names, list_tools in Hn. simpl in Hn.
  rewrite !not_elem_of_cons in Hn. unfold call_tool.
  repeat match goal with
         | |- context [String.eqb name ?s] =>
             rewrite (proj2 (String.eqb_neq name s)) by (intuition congruence)
         end.
  reflexivity.
Qed.

(** X12. The catalog and the dispatcher list the same tools:
    [call_tool] raises the error [Unknown tool: <name>] exactly for the
    names [list_tools] does not advertise. Every advertised tool has
    its branch: none is reported unknown, whatever its arguments and
    whatever the command line does. *)
Theorem call_tool_unknown_iff_unlisted
    (name : string) (args : gmap string json) (w : world) :
  (call_tool name args w).1 = Raise (ValueError ("Unknown tool: " +:+ name))
  ↔ name ∉ tool_names.
Proof.
  split.
  - intros Hraise Hin.
    by pose proof (call_tool_listed_quiet name args Hin w _ Hraise).
  - intros Hn. by rewrite (call_tool_not_listed name args w Hn).
Qed.

(** ** The AZ experiments and the rollback of their state files *)

(** X4. The action and the rollback step of an AZ-failure experiment
    name the same state file, the [state_path] argument or else
    [./fail_az.ec2.json]; and when that path contains [ec2], the
    document [rollback_from_state] later synthesises for it calls the
    very provider the experiment's own rollback step declares (module,
    function and arguments). The same holds for the ASG-AZ-failure
    experiment, with [./fail_az.asg.json], for a path that contains
    [asg] and not [ec2]. *)
Theorem az_rollback_step_is_what_rollback_runs
    (args : gmap string json) (doc : json) (p : string) :
  (az_failure_document args = Ok doc →
   args_get args "state_path" (JStr "./fail_az.ec2.json") = JStr p →
   str_in "ec2" p = true →
   ∃ action rollback step,
     method_of doc = Some [action] ∧ rollbacks_of doc = Some [rollback] ∧
     state_path_of action = Some (JStr p) ∧
     state_path_of rollback = Some (JStr p) ∧
     rollback_module (JStr p) = Ok (Some "azchaosaws.ec2.actions") ∧
     method_of (rollback_experiment "azchaosaws.ec2.actions" (JStr p)) = Some [step] ∧
     get "provider" step = get "provider" rollback) ∧
  (asg_az_failure_document args = Ok doc →
   args_get args "state_path" (JStr "./fail_az.asg.json") = JStr p →
   str_in "ec2" p = false → str_in "asg" p = true →
   ∃ action rollback step,
     method_of doc = Some [action] ∧ rollbacks_of doc = Some [rollback] ∧
     state_path_of action = Some (JStr p) ∧
     state_path_of rollback = Some (JStr p) ∧
     rollback_module (JStr p) = Ok (Some "azchaosaws.asg.actions") ∧
     method_of (rollback_experiment "azchaosaws.asg.actions" (JStr p)) = Some [step] ∧
     get "provider" step = get "provider" rollback).
Proof.
  split.
  - unfold az_failure_document. intros H Hp He. open_builder H. injection H as <-.
    rewrite Hp, rollback_module_str, He. eexists _, _, _.
    repeat split; reflexivity.
  - unfold asg_az_failure_document. intros H Hp He Ha. open_builder H.
    injection H as <-.
    rewrite Hp, rollback_module_str, He, Ha. eexists _, _, _.
    repeat split; reflexivity.
Qed.

(** ** The EC2-actions generator *)

Lemma copy_if_truthy_lookup args k m k' :
  copy_if_truthy args k m !! k'
  = if decide (k = k')
    then (if truthy (args_get args k JNull) then args !! k else m !! k)
    else m !! k'.
Proof.
  unfold copy_if_truthy, args_get.
  destruct (decide (k = k')) as [<-|Hne].
  - destruct (args !! k) as [v|]; simpl.
    + destruct (truthy v); [apply lookup_insert_eq|done].
    + done.
  - destruct (truthy _); [by rewrite lookup_insert_ne|done].
Qed.

(** X5. The EC2-actions generator accepts any string as [action_type],
    inside or outside the enum of its schema, and uses it as the name
    and the function of the single step, in module
    [chaosaws.ec2.actions]. The step receives [instance_ids], [filters]
    and [az], each only when supplied with a truthy value, and no other
    argument, whatever else the caller passed. *)
Theorem ec2_actions_step (args : gmap string json) :
  (∀ t name, args !! "title" = Some (JStr t) →
             args !! "action_type" = Some (JStr name) →
             opt_str args "aws_region" →
             is_ok (ec2_actions_document args) = true) ∧
  (∀ doc, ec2_actions_document args = Ok doc →
     ∃ name a,
       args !! "action_type" = Some (JStr name) ∧
       method_of doc = Some [action_entry a] ∧
       action_name a = name ∧ action_func a = name ∧
       action_module a = "chaosaws.ec2.actions" ∧
       ∀ k, action_arguments a !! k
            = if bool_decide (k ∈ ec2_selectors) && truthy (args_get args k JNull)
              then args !! k else None).
Proof.
  split.
  - intros t name Ht Hn Hr. destruct (args_get_opt_str _ _ "us-east-1" Hr) as [r Hr'].
    unfold ec2_actions_document, subscript. rewrite Ht, Hn. simpl. by rewrite Hr'.
  - unfold ec2_actions_document. intros doc H. open_builder H. injection H as <-.
    eexists _, _. split; [done|]. split; [reflexivity|]. repeat split.
    intros k. simpl. rewrite !copy_if_truthy_lookup, lookup_empty.
    unfold ec2_selectors.
    destruct (decide ("az" = k)) as [<-|Haz];
      [rewrite bool_decide_eq_true_2
         by (rewrite !elem_of_cons; auto); simpl;
       repeat case_decide; try discriminate; by destruct (truthy _)|].
    destruct (decide ("filters" = k)) as [<-|Hf];
      [rewrite bool_decide_eq_true_2
         by (rewrite !elem_of_cons; auto); simpl;
       repeat case_decide; try discriminate; by destruct (truthy _)|].
    destruct (decide ("instance_ids" = k)) as [<-|Hi];
      [rewrite bool_decide_eq_true_2
         by (rewrite !elem_of_cons; auto); simpl; by destruct (truthy _)|].
    rewrite bool_decide_eq_false_2; [done|].
    rewrite !elem_of_cons. intros [?|[?|[?|?%elem_of_nil]]]; congruence.
Qed.

(** ** The SSM stress generator, in general *)

Lemma append_assoc (a b c : string) : (a +:+ b) +:+ c = a +:+ (b +:+ c).
Proof.
  induction a as [|x a IH]; [done|].
  change (String x ((a +:+ b) +:+ c) = String x (a +:+ (b +:+ c))).
  by rewrite IH.
Qed.

(** X6. An SSM stress document has one [send_command] step of module
    [chaosaws.ssm.actions] that runs [AWS-RunShellScript] on the
    [instance_ids] supplied, unchanged. For [cpu] it carries the one
    command [stress --cpu <cpu_cores or 2> --timeout <duration_seconds
    or 300>s]. For [disk] it carries three: a [dd] that fills
    [<path or /tmp>/chaos_fill] with [<size_mb or 1024>] blocks, a
    [sleep] of [<duration_seconds or 600>], and an [rm -f] of exactly
    the file filled. The values are spliced in as formatted, unquoted. *)
Theorem ssm_stress_step (args : gmap string json) (stress_type : string) (doc : json) :
  ssm_stress_document args stress_type = Ok doc →
  ∃ a ids commands,
    args !! "instance_ids" = Some ids ∧
    method_of doc = Some [action_entry a] ∧
    action_module a = "chaosaws.ssm.actions" ∧
    action_func a = "send_command" ∧
    action_arguments a !! "instance_ids" = Some ids ∧
    action_arguments a !! "document_name" = Some (JStr "AWS-RunShellScript") ∧
    commands_of doc = Some (JStr <$> commands) ∧
    (stress_type = "cpu" →
       commands = ["stress --cpu " +:+ py_str (args_get args "cpu_cores" (JInt 2)) +:+
                   " --timeout " +:+
                   py_str (args_get args "duration_seconds" (JInt 300)) +:+ "s"]) ∧
    (stress_type = "disk" →
       ∃ target,
         target = py_str (args_get args "path" (JStr "/tmp")) +:+ "/chaos_fill" ∧
         commands = ["dd if=/dev/zero of=" +:+ target +:+ " bs=1M count=" +:+
                     py_str (args_get args "size_mb" (JInt 1024));
                     "sleep " +:+ py_str (args_get args "duration_seconds" (JInt 600));
                     "rm -f " +:+ target]).
Proof.
  unfold ssm_stress_document. intros H. open_builder H. injection H as <-.
  eexists _, _, (stress_commands args stress_type).
  split; [done|]. split; [reflexivity|]. repeat split.
  - intros ->. reflexivity.
  - intros ->. eexists. split; [reflexivity|].
    rewrite append_assoc. reflexivity.
Qed.

(** ** What an attempted rollback reports *)

(** X13. An attempted rollback whose temporary file is still there when
    the command ends reports [SUCCESS] for exit code zero and [FAILED]
    otherwise, followed by the output and the errors of the command when
    they are not empty; a timeout or another exception gives the single
    entry [Error rolling back <file>: <str(e)>]. If the command itself
    removed the temporary file, the failing [unlink] adds such an error
    entry, even after a [SUCCESS], and takes the place of the report of
    a timeout or exception. *)
Theorem rollback_one_reports
    (cwd : json) (p module : string) (w : world) (rs : list string) :
  is_Some (files w !! p) →
  (if str_in "ec2" p then Some "azchaosaws.ec2.actions"
   else if str_in "asg" p then Some "azchaosaws.asg.actions"
   else None) = Some module →
  let cmd := [JStr "chaos"; JStr "run"; JStr (temp_name w)] in
  let ran := os_run (rollback_call cwd w) (staged module p w) in
  let after := (rollback_one cwd (JStr p) (w, rs)).2.2 in
  (is_Some (ran.2 !! temp_name w) →
     after = rs ++ rollback_report p cmd ran.1) ∧
  (ran.2 !! temp_name w = None →
     after = rs ++
             match ran.1 with
             | Completed _ _ _ => rollback_report p cmd ran.1
             | _ => []
             end ++
             ["Error rolling back " +:+ p +:+ ": " +:+
              str_exn (FileNotFoundError (temp_name w))]).
Proof.
  intros Hp Hm cmd ran after. subst cmd ran after.
  enough ((rollback_one cwd (JStr p) (w, rs)).2.2
          = rs ++
            match (os_run (rollback_call cwd w) (staged module p w)).2 !! temp_name w with
            | Some _ =>
                rollback_report p [JStr "chaos"; JStr "run"; JStr (temp_name w)]
                  (os_run (rollback_call cwd w) (staged module p w)).1
            | None =>
                match (os_run (rollback_call cwd w) (staged module p w)).1 with
                | Completed _ _ _ =>
                    rollback_report p [JStr "chaos"; JStr "run"; JStr (temp_name w)]
                      (os_run (rollback_call cwd w) (staged module p w)).1
                | _ => []
                end ++
                ["Error rolling back " +:+ p +:+ ": " +:+
                 str_exn (FileNotFoundError (temp_name w))]
            end) as ->.
  { split; [intros [c ->]; reflexivity|intros ->; reflexivity]. }
  unfold rollback_one, mbind at 1, M_bind at 1, in_world. simpl.
  rewrite bool_decide_eq_true_2 by done. simpl.
  unfold try_except, mbind at 1, M_bind at 1, lift.
  rewrite rollback_module_str, Hm.
  unfold mbind at 1, M_bind at 1, in_world, named_temporary_file. simpl.
  unfold try_finally, mbind at 1, M_bind at 1, in_world, subprocess_run. simpl.
  fold (staged module p w). fold (rollback_call cwd w).
  unfold os_unlink, rollback_report.
  destruct (os_run (rollback_call cwd w) (staged module p w)) as [o fs] eqn:Hrun.
  simpl.
  destruct o as [rc out err| |e]; simpl.
  - unfold mbind, M_bind, append, append_if_nonempty. simpl.
    destruct (String.eqb out EmptyString), (String.eqb err EmptyString); simpl;
      destruct (fs !! temp_name w); simpl; rewrite <- ?app_assoc; reflexivity.
  - destruct (fs !! temp_name w); reflexivity.
  - destruct (fs !! temp_name w); reflexivity.
Qed.

(** ** Where a file goes when no output path is given *)

Lemma generator_default_path (document : result json) args default_out msg w items w' :
  args !! "output_file" = None →
  (lift document ≫= λ experiment,
     write_and_preview experiment
       (args_get args "output_file" (JStr default_out)) msg) w = (Ok items, w') →
  ∃ content,
    w' = mkWorld (<[default_out := content]> (files w)) (getcwd w) (calls w) (temps w).
Proof.
  intros Ho. unfold args_get. rewrite Ho. simpl.
  destruct document as [doc|e]; [|discriminate].
  unfold mbind at 1, M_bind at 1, lift. rewrite write_and_preview_str.
  intros [= _ <-]. eauto.
Qed.

Lemma ec2_generator_default_path args w items w' :
  args !! "output_file" = None →
  generate_ec2_actions_experiment args w = (Ok items, w') →
  ∃ content,
    w' = mkWorld (<["./ec2-chaos-experiment.json" := content]> (files w))
                 (getcwd w) (calls w) (temps w).
Proof.
  intros Ho. unfold generate_ec2_actions_experiment, args_get. rewrite Ho. simpl.
  destruct (ec2_actions_document args) as [doc|e]; [|discriminate].
  unfold mbind at 1, M_bind at 1, lift.
  destruct (subscript args "action_type") as [ty|e]; [|discriminate].
  unfold mbind at 1, M_bind at 1. rewrite write_and_preview_str.
  intros [= _ <-]. eauto.
Qed.

(** X14. Left without [output_file], a generation tool that succeeds
    writes its one file to a path fixed by the tool, and that path is
    the default its schema advertises for four tools only: AZ failure,
    ASG AZ failure, EC2 actions and SSM CPU stress. The other sixteen
    write to a path other than the advertised one. *)
Theorem default_output_file_vs_schema
    (name advertised : string) (args : gmap string json)
    (w w' : world) (items : list json) :
  (name, advertised) ∈ advertised_output_file →
  args !! "output_file" = None →
  call_tool name args w = (Ok items, w') →
  ∃ out content,
    w' = mkWorld (<[out := content]> (files w)) (getcwd w) (calls w) (temps w) ∧
    (out = advertised ↔ name ∈ tools_writing_as_advertised).
Proof.
  intros Hin Ho. unfold advertised_output_file in Hin.
  elem_cases Hin; injection Hin as -> ->; unfold call_tool; simpl; intros Hcall.
  all: first
    [ apply (ec2_generator_default_path _ _ _ _ Ho) in Hcall as [content ->]
    | apply (generator_default_path _ _ _ _ _ _ _ Ho) in Hcall as [content ->] ].
  all: eexists _, content; split; [reflexivity|].
  all: unfold tools_writing_as_advertised; rewrite !elem_of_cons, elem_of_nil.
  all: split; [intros Heq; first [discriminate Heq | tauto]
              |intros Hn; first [reflexivity | exfalso; intuition discriminate]].
Qed.

End server.

(** ** The repository's tests, replayed on the model *)

(** [test_generate_generic_experiment]. *)
Example test_generate_generic_experiment :
  let args : gmap string json :=
    {[ "title" := JStr "Test Generic Experiment";
       "instance_ids" := JList [JStr "i-123"; JStr "i-456"];
       "force" := JBool true;
       "output_file" := JStr "./test_generic_experiment.json";
       "aws_region" := JStr "us-east-1" ]} in
  let r := generate_generic_experiment fake_repr fake_dumps args
             "chaosaws.ec2.actions" "stop_instances" empty_world in
  is_ok r.1 = true ∧
  files r.2 !! "./test_generic_experiment.json"
  = Some "{title: Test Generic Experiment}" ∧
  (doc ← (match generic_document args "chaosaws.ec2.actions" "stop_instances" with
          | Ok doc => Some doc | Raise _ => None end);
   steps ← method_of doc;
   read_action <$> steps !! 0%nat)
  = Some (Some (mkActionConfig "stop_instances" "action" "chaosaws.ec2.actions"
                  "stop_instances"
                  {[ "instance_ids" := JList [JStr "i-123"; JStr "i-456"];
                     "force" := JBool true ]})).
Proof. vm_compute. repeat split. Qed.

(** [test_generate_ssm_cpu_stress_experiment]. *)
Example test_generate_ssm_cpu_stress_experiment :
  stress_commands fake_repr
    {[ "title" := JStr "SSM CPU Stress Test";
       "instance_ids" := JList [JStr "i-123"];
       "cpu_cores" := JInt 4;
       "duration_seconds" := JInt 600 ]} "cpu"
  = ["stress --cpu 4 --timeout 600s"].
Proof. vm_compute. reflexivity. Qed.

(** [test_validate_experiment_file_not_found]. *)
Example test_validate_experiment_file_not_found :
  validate_experiment fake_repr fake_str_exn fake_run
    {[ "experiment_file" := JStr "./nonexistent.json" ]} empty_world
  = (Ok [text_item "Error: Experiment file not found: ./nonexistent.json"],
     empty_world).
Proof. vm_compute. reflexivity. Qed.

(** A rollback over one EC2 state file and one missing file: the first
    is run and reported, the second gets its warning, and the temporary
    file is gone. *)
Example rollback_of_two_state_files :
  rollback_from_state fake_repr fake_str_exn fake_dumps fake_run fake_temp_name
    {[ "state_files" := JList [JStr "./fail_az.ec2.json"; JStr "./gone.json"] ]}
    ec2_world
  = (Ok [text_item
           ("Rollback from ./fail_az.ec2.json: SUCCESS" +:+ nl +:+
            "Output: ok" +:+ nl +:+
            "Warning: State file not found: ./gone.json")],
     mkWorld {[ "./fail_az.ec2.json" := "{}" ]} "/work"
       [(mkCall [JStr "chaos"; JStr "run"; JStr "/tmp/tmp0.json"]
                (Some (JStr "/work")) 600,
         {[ "./fail_az.ec2.json" := "{}";
            "/tmp/tmp0.json" := "{title: Rollback from ./fail_az.ec2.json}" ]})]
       ["/tmp/tmp0.json"]).
Proof. vm_compute. reflexivity. Qed.

(** The same rollback when [chaos] cannot be started: the failure of the
    first file is reported and the second file is still looked at. *)
Example rollback_goes_on_after_a_failure :
  rollback_from_state fake_repr fake_str_exn fake_dumps broken_run fake_temp_name
    {[ "state_files" := JList [JStr "./fail_az.ec2.json"; JStr "./gone.json"] ]}
    ec2_world
  = (Ok [text_item
           ("Error rolling back ./fail_az.ec2.json: " +:+
            "No such file or directory: 'chaos'" +:+ nl +:+
            "Warning: State file not found: ./gone.json")],
     mkWorld {[ "./fail_az.ec2.json" := "{}" ]} "/work"
       [(mkCall [JStr "chaos"; JStr "run"; JStr "/tmp/tmp0.json"]
                (Some (JStr "/work")) 600,
         {[ "./fail_az.ec2.json" := "{}";
            "/tmp/tmp0.json" := "{title: Rollback from ./fail_az.ec2.json}" ]})]
       ["/tmp/tmp0.json"]).
Proof. vm_compute. reflexivity. Qed.

(** ** The theorems at concrete inputs *)

(** The generic generator on the arguments of the repository's test. *)
Lemma generic_step_arguments_witness :
  let args : gmap string json :=
    {[ "title" := JStr "Test Generic Experiment";
       "instance_ids" := JList [JStr "i-123"; JStr "i-456"];
       "force" := JBool true;
       "output_file" := JStr "./test_generic_experiment.json";
       "aws_region" := JStr "us-east-1" ]} in
  ∃ doc step,
    generic_document args "chaosaws.ec2.actions" "stop_instances" = Ok doc ∧
    method_of doc = Some [step] ∧
    read_action step
    = Some (mkActionConfig "stop_instances" "action" "chaosaws.ec2.actions"
              "stop_instances"
              (delete "title" (delete "output_file" (delete "aws_region" args)))).
Proof.
  intros args.
  destruct (proj1 (generic_step_arguments_exclude_meta fake_repr fake_dumps)
              args "chaosaws.ec2.actions" "stop_instances"
              "Test Generic Experiment" empty_world)
    as (doc & step & out & preview & _ & Hdoc & Hm & Hr & _).
  - vm_compute. reflexivity.
  - right. exists "us-east-1". vm_compute. reflexivity.
  - right. exists "./test_generic_experiment.json". vm_compute. reflexivity.
  - exists doc, step. auto.
Defined.

(** C3, counterexample. A call that supplies [health_check_url] as the
    empty string gets a document with no probe at all, from either AZ
    generator. *)
Lemma empty_health_check_url_yields_no_probe :
  let args : gmap string json :=
    {[ "title" := JStr "AZ Failure Test";
       "az" := JStr "us-east-1a";
       "health_check_url" := JStr EmptyString ]} in
  args !! "health_check_url" = Some (JStr EmptyString) ∧
  (∃ doc, az_failure_document fake_repr args = Ok doc ∧ probes_of doc = Some []) ∧
  (∃ doc, asg_az_failure_document fake_repr args = Ok doc ∧ probes_of doc = Some []).
Proof.
  intros args. split; [vm_compute; reflexivity|].
  split; (eexists; split; [reflexivity|vm_compute; reflexivity]).
Qed.

(** The AZ generators on the arguments of the repository's test, which
    supply a health-check URL. *)
Lemma health_check_probe_witness :
  let args : gmap string json :=
    {[ "title" := JStr "AZ Failure Test";
       "az" := JStr "us-east-1a";
       "health_check_url" := JStr "http://test.com/health";
       "output_file" := JStr "./test_az_experiment.json" ]} in
  ∃ doc1 doc2 p,
    az_failure_document fake_repr args = Ok doc1 ∧
    asg_az_failure_document fake_repr args = Ok doc2 ∧
    probes_of doc1 = Some [p] ∧ probes_of doc2 = Some [p] ∧
    read_probe p = Some (http_probe (JStr "http://test.com/health")).
Proof.
  intros args.
  destruct (health_check_probe_iff_truthy_url fake_repr fake_dumps args
              "AZ Failure Test" (JStr "us-east-1a") empty_world)
    as (doc1 & doc2 & out1 & out2 & H1 & H2 & _ & _ & _ & _ & Hurl).
  - vm_compute. reflexivity.
  - vm_compute. reflexivity.
  - left. vm_compute. reflexivity.
  - right. exists "./test_az_experiment.json". vm_compute. reflexivity.
  - destruct (Hurl (JStr "http://test.com/health")) as (p & Hp1 & Hp2 & Hp).
    + vm_compute. reflexivity.
    + reflexivity.
    + exists doc1, doc2, p. auto.
Defined.

(** The SSM stress tools on the arguments of the repository's two
    tests: the commands, and the file each tool writes. *)
Lemma ssm_stress_command_strings_witness :
  let cpu : gmap string json :=
    {[ "title" := JStr "SSM CPU Stress Test";
       "instance_ids" := JList [JStr "i-123"];
       "cpu_cores" := JInt 4;
       "duration_seconds" := JInt 600;
       "output_file" := JStr "./test_ssm_cpu_experiment.json" ]} in
  let disk : gmap string json :=
    {[ "title" := JStr "SSM Disk Stress Test";
       "instance_ids" := JList [JStr "i-789"];
       "size_mb" := JInt 2048;
       "duration_seconds" := JInt 300;
       "path" := JStr "/var/tmp" ]} in
  (∃ doc c, ssm_stress_document fake_repr cpu "cpu" = Ok doc ∧
            commands_of doc = Some [JStr c] ∧
            str_in "stress --cpu 4" c = true ∧ str_in "--timeout 600s" c = true ∧
            files (call_tool fake_repr fake_str_exn fake_dumps fake_run fake_temp_name
                     "chaos_ssm_stress_cpu" cpu empty_world).2
              !! "./test_ssm_cpu_experiment.json" = Some (fake_dumps doc)) ∧
  (∃ doc fill, ssm_stress_document fake_repr disk "disk" = Ok doc ∧
               commands_of doc
               = Some [JStr fill; JStr "sleep 300"; JStr "rm -f /var/tmp/chaos_fill"] ∧
               files (call_tool fake_repr fake_str_exn fake_dumps fake_run fake_temp_name
                        "chaos_ssm_fill_disk" disk empty_world).2
                 !! "./ssm-disk-stress-experiment.json" = Some (fake_dumps doc)).
Proof.
  intros cpu disk. split.
  - destruct (proj1 (ssm_stress_command_strings fake_repr fake_str_exn fake_dumps
                       fake_run fake_temp_name cpu "SSM CPU Stress Test"
                       (JList [JStr "i-123"]) empty_world
                       ltac:(vm_compute; reflexivity)
                       ltac:(vm_compute; reflexivity)
                       ltac:(left; vm_compute; reflexivity)
                       ltac:(right; exists "./test_ssm_cpu_experiment.json";
                             vm_compute; reflexivity)))
      as (doc & step & c & out & Hcall & Hgen & Hdoc & _ & Hc & H1 & H2).
    + vm_compute. reflexivity.
    + vm_compute. reflexivity.
    + exists doc, c. repeat (split; [assumption|]).
      pose proof Hdoc as Hd. vm_compute in Hd. injection Hd as Hd.
      rewrite <- Hd. vm_compute. reflexivity.
  - destruct (proj2 (ssm_stress_command_strings fake_repr fake_str_exn fake_dumps
                       fake_run fake_temp_name disk "SSM Disk Stress Test"
                       (JList [JStr "i-789"]) empty_world
                       ltac:(vm_compute; reflexivity)
                       ltac:(vm_compute; reflexivity)
                       ltac:(left; vm_compute; reflexivity)
                       ltac:(left; vm_compute; reflexivity)))
      as (doc & step & fill & out & Hcall & Hgen & Hdoc & _ & Hc & _).
    + vm_compute. reflexivity.
    + vm_compute. reflexivity.
    + vm_compute. reflexivity.
    + exists doc, fill. repeat (split; [assumption|]).
      pose proof Hdoc as Hd. vm_compute in Hd. injection Hd as Hd.
      rewrite <- Hd. vm_compute. reflexivity.
Defined.


(** Running and validating a path that does not exist, and running an
    existing one with a command line that times out. *)
Lemma run_validate_expected_failures_witness :
  let args : gmap string json := {[ "experiment_file" := JStr "./nonexistent.json" ]} in
  let args' : gmap string json := {[ "experiment_file" := JStr "./fail_az.ec2.json" ]} in
  (run_experiment fake_repr fake_str_exn fake_run args empty_world
   = (Ok [text_item "Error: Experiment file not found: ./nonexistent.json"],
      empty_world) ∧
   validate_experiment fake_repr fake_str_exn fake_run args empty_world
   = (Ok [text_item "Error: Experiment file not found: ./nonexistent.json"],
      empty_world)) ∧
  (run_experiment fake_repr fake_str_exn slow_run args' ec2_world).1
  = Ok [text_item "Error: Experiment execution timed out after 1 hour"].
Proof.
  intros args args'. split.
  - apply (run_validate_expected_failures fake_repr fake_str_exn fake_run args
             "./nonexistent.json" empty_world).
    + vm_compute. reflexivity.
    + vm_compute. reflexivity.
  - destruct (proj1 (proj2 (run_validate_expected_failures fake_repr fake_str_exn
                              slow_run args' "./fail_az.ec2.json" ec2_world
                              ltac:(vm_compute; reflexivity))))
      as (c & _ & _ & _ & Hexp).
    + exists "{}". vm_compute. reflexivity.
    + apply Hexp. reflexivity.
Defined.

(** A name the catalog does not list. *)
Lemma call_tool_unknown_name_witness :
  call_tool fake_repr fake_str_exn fake_dumps fake_run fake_temp_name
    "chaos_delete_everything" ∅ ec2_world
  = (Raise (ValueError "Unknown tool: chaos_delete_everything"), ec2_world).
Proof.
  apply (λ H, proj1 (call_tool_unknown_name fake_repr fake_str_exn fake_dumps fake_run
           fake_temp_name "chaos_delete_everything" ∅ ec2_world H)).
  apply (bool_decide_unpack _). vm_compute. exact I.
Defined.

(** C8, the failing run. One state file that exists and names [ec2],
    on a system whose disk takes no more data: the temporary file is
    created, the write fails, the [except] clause reports the failure,
    and the temporary file is still there when the operation returns.
    Where the write succeeds, the same call leaves none. *)
Theorem rollback_keeps_temp_file_of_failed_write :
  let args : gmap string json :=
    {[ "state_files" := JList [JStr "./fail_az.ec2.json"] ]} in
  let failed :=
    rollback_from_state_io fake_repr fake_str_exn fake_dumps fake_run fake_temp_name
      full_disk args ec2_world in
  let written :=
    rollback_from_state_io fake_repr fake_str_exn fake_dumps fake_run fake_temp_name
      roomy args ec2_world in
  failed.1 = Ok [text_item ("Error rolling back ./fail_az.ec2.json: " +:+
                            "[Errno 28] No space left on device")] ∧
  calls failed.2 = [] ∧
  temps failed.2 = ["/tmp/tmp0.json"] ∧
  files failed.2 !! "/tmp/tmp0.json" = Some EmptyString ∧
  written.1 = Ok [text_item ("Rollback from ./fail_az.ec2.json: SUCCESS" +:+ nl +:+
                             "Output: ok")] ∧
  temps written.2 = ["/tmp/tmp0.json"] ∧
  files written.2 !! "/tmp/tmp0.json" = None.
Proof. vm_compute. repeat split; reflexivity. Qed.

(** C9, counterexample. [chaos_isolate_az_network] requires [vpc_id];
    called without it, [call_tool] reports no failure and writes the
    experiment file. *)
Lemma isolate_az_network_without_vpc_id_writes :
  let tool :=
    mkTool "chaos_isolate_az_network"
      ["title"; "az"; "vpc_id"; "dry_run"; "output_file"; "aws_region"]
      ["title"; "az"; "vpc_id"] in
  let args : gmap string json :=
    {[ "title" := JStr "Isolate one AZ"; "az" := JStr "us-east-1a" ]} in
  let r := call_tool fake_repr fake_str_exn fake_dumps fake_run fake_temp_name
             (tool_name tool) args empty_world in
  tool ∈ list_tools ∧
  "vpc_id" ∈ required tool ∧
  args !! "vpc_id" = None ∧
  is_ok r.1 = true ∧
  files empty_world !! "./isolate_az_network-experiment.json" = None ∧
  files r.2 !! "./isolate_az_network-experiment.json"
  = Some (fake_dumps (JObj {[ "title" := JStr "Isolate one AZ" ]})).
Proof.
  intros tool args r. split; [|split; [|split; [|split; [|split]]]].
  - apply (list_elem_of_lookup_2 _ 1%nat). reflexivity.
  - apply (list_elem_of_lookup_2 _ 2%nat). reflexivity.
  - vm_compute. reflexivity.
  - vm_compute. reflexivity.
  - vm_compute. reflexivity.
  - vm_compute. reflexivity.
Qed.

(** The same tool called without a title. *)
Lemma missing_subscripted_field_witness :
  let args : gmap string json :=
    {[ "az" := JStr "us-east-1a"; "vpc_id" := JStr "vpc-1" ]} in
  ∃ e, call_tool fake_repr fake_str_exn fake_dumps fake_run fake_temp_name
         "chaos_isolate_az_network" args empty_world
       = (Raise e, empty_world).
Proof.
  intros args.
  apply (missing_subscripted_field_writes_nothing fake_repr fake_str_exn fake_dumps
           fake_run fake_temp_name
           (mkTool "chaos_isolate_az_network"
              ["title"; "az"; "vpc_id"; "dry_run"; "output_file"; "aws_region"]
              ["title"; "az"; "vpc_id"])
           "title" args empty_world).
  - apply (list_elem_of_lookup_2 _ 1%nat). reflexivity.
  - apply (bool_decide_unpack _). vm_compute. exact I.
  - apply (list_elem_of_lookup_2 _ 0%nat). reflexivity.
  - left. reflexivity.
  - vm_compute. reflexivity.
Defined.

(** A state file whose name contains both [asg] and [ec2]. *)
Lemma rollback_routing_prefers_ec2_witness :
  let w := mkWorld {[ "./asg.fail_az.ec2.json" := "{}" ]} "/work" [] [] in
  str_in "asg" "./asg.fail_az.ec2.json" = true ∧
  (rollback_one fake_repr fake_str_exn fake_dumps fake_run fake_temp_name
     (JStr "/work") (JStr "./asg.fail_az.ec2.json") (w, [])).2.1
  = attempted_world fake_repr fake_dumps fake_run fake_temp_name (JStr "/work")
      "azchaosaws.ec2.actions" "./asg.fail_az.ec2.json" w.
Proof.
  intros w. split; [reflexivity|].
  apply (proj1 (rollback_routing_prefers_ec2 fake_repr fake_str_exn fake_dumps
                  fake_run fake_temp_name (JStr "/work") "./asg.fail_az.ec2.json"
                  w [] ltac:(exists "{}"; vm_compute; reflexivity))).
  reflexivity.
Defined.

(** ** The further theorems at concrete inputs *)

(** Stopping instances in a world that already holds a state file: the
    tool writes its one file and leaves the rest alone. *)
Lemma generation_tools_write_one_file_witness :
  let args : gmap string json :=
    {[ "title" := JStr "Stop"; "output_file" := JStr "./stop.json" ]} in
  generated fake_dumps args ec2_world
    (call_tool fake_repr fake_str_exn fake_dumps fake_run fake_temp_name
       "chaos_stop_instances" args ec2_world).
Proof.
  intros args.
  apply (generation_tools_write_one_file fake_repr fake_str_exn fake_dumps fake_run
           fake_temp_name "chaos_stop_instances" args ec2_world).
  - apply (bool_decide_unpack _). vm_compute. exact I.
  - apply (bool_decide_unpack _). vm_compute. exact I.
  - right. exists "./stop.json". reflexivity.
Defined.

(** The metadata of a generic document and of an AZ-failure document
    built from a title alone. *)
Lemma generated_document_header_witness :
  let args : gmap string json :=
    {[ "title" := JStr "Reboot"; "az" := JStr "us-east-1a" ]} in
  (∃ doc, generic_document args "chaosaws.ec2.actions" "reboot_instances" = Ok doc ∧
          header_from args doc ∧ rollbacks_of doc = Some []) ∧
  (∃ doc rollback, az_failure_document fake_repr args = Ok doc ∧
                   header_from args doc ∧ rollbacks_of doc = Some [rollback]).
Proof.
  intros args. split.
  - destruct (generic_document args "chaosaws.ec2.actions" "reboot_instances")
      as [doc|e] eqn:Hdoc; [|vm_compute in Hdoc; discriminate Hdoc].
    destruct (proj2 (generated_document_header fake_repr args doc)) as (Hh & _ & _ & Hr).
    + right. left. eexists _, _. exact Hdoc.
    + exists doc. auto.
  - destruct (az_failure_document fake_repr args) as [doc|e] eqn:Hdoc;
      [|vm_compute in Hdoc; discriminate Hdoc].
    destruct (proj1 (generated_document_header fake_repr args doc) (or_introl Hdoc))
      as (Hh & _ & rollback & Hr).
    exists doc, rollback. auto.
Defined.

(** An AZ-failure and an ASG-AZ-failure experiment generated without a
    [state_path]: the default state files route to the module each
    experiment names. *)
Lemma az_rollback_step_witness :
  let args : gmap string json :=
    {[ "title" := JStr "AZ Failure Test"; "az" := JStr "us-east-1a" ]} in
  (∃ doc rollback step,
     az_failure_document fake_repr args = Ok doc ∧
     rollbacks_of doc = Some [rollback] ∧
     method_of (rollback_experiment fake_repr "azchaosaws.ec2.actions"
                  (JStr "./fail_az.ec2.json")) = Some [step] ∧
     get "provider" step = get "provider" rollback) ∧
  (∃ doc rollback step,
     asg_az_failure_document fake_repr args = Ok doc ∧
     rollbacks_of doc = Some [rollback] ∧
     method_of (rollback_experiment fake_repr "azchaosaws.asg.actions"
                  (JStr "./fail_az.asg.json")) = Some [step] ∧
     get "provider" step = get "provider" rollback).
Proof.
  intros args. split.
  - destruct (az_failure_document fake_repr args) as [doc|e] eqn:Hdoc;
      [|vm_compute in Hdoc; discriminate Hdoc].
    destruct (proj1 (az_rollback_step_is_what_rollback_runs fake_repr args doc
                       "./fail_az.ec2.json") Hdoc)
      as (action & rollback & step & _ & Hr & _ & _ & _ & Hs & Hp).
    + vm_compute. reflexivity.
    + reflexivity.
    + exists doc, rollback, step. auto.
  - destruct (asg_az_failure_document fake_repr args) as [doc|e] eqn:Hdoc;
      [|vm_compute in Hdoc; discriminate Hdoc].
    destruct (proj2 (az_rollback_step_is_what_rollback_runs fake_repr args doc
                       "./fail_az.asg.json") Hdoc)
      as (action & rollback & step & _ & Hr & _ & _ & _ & Hs & Hp).
    + vm_compute. reflexivity.
    + reflexivity.
    + reflexivity.
    + exists doc, rollback, step. auto.
Defined.

(** The EC2-actions generator given an action outside the enum, an
    empty [instance_ids] list and a [force] flag. *)
Lemma ec2_actions_step_witness :
  let args : gmap string json :=
    {[ "title" := JStr "EC2 Test"; "action_type" := JStr "hibernate_instances";
       "instance_ids" := JList []; "az" := JStr "us-east-1a";
       "force" := JBool true ]} in
  is_ok (ec2_actions_document fake_repr args) = true ∧
  ∃ doc a,
    ec2_actions_document fake_repr args = Ok doc ∧
    method_of doc = Some [action_entry a] ∧
    action_func a = "hibernate_instances" ∧
    action_arguments a !! "az" = Some (JStr "us-east-1a") ∧
    action_arguments a !! "instance_ids" = None ∧
    action_arguments a !! "force" = None.
Proof.
  intros args. split.
  - apply (proj1 (ec2_actions_step fake_repr args) "EC2 Test" "hibernate_instances").
    + vm_compute. reflexivity.
    + vm_compute. reflexivity.
    + left. vm_compute. reflexivity.
  - destruct (ec2_actions_document fake_repr args) as [doc|e] eqn:Hdoc;
      [|vm_compute in Hdoc; discriminate Hdoc].
    destruct (proj2 (ec2_actions_step fake_repr args) doc Hdoc)
      as (name & a & Hn & Hm & _ & Hf & _ & Hargs).
    exists doc, a. split; [done|]. split; [done|].
    vm_compute in Hn. injection Hn as <-.
    split; [done|]. rewrite !Hargs. vm_compute. auto.
Defined.

(** The disk stress generator left to its defaults. *)
Lemma ssm_stress_step_witness :
  let args : gmap string json :=
    {[ "title" := JStr "Fill"; "instance_ids" := JList [JStr "i-789"] ]} in
  ∃ doc,
    ssm_stress_document fake_repr args "disk" = Ok doc ∧
    commands_of doc
    = Some [JStr "dd if=/dev/zero of=/tmp/chaos_fill bs=1M count=1024";
            JStr "sleep 600"; JStr "rm -f /tmp/chaos_fill"].
Proof.
  intros args.
  destruct (ssm_stress_document fake_repr args "disk") as [doc|e] eqn:Hdoc;
    [|vm_compute in Hdoc; discriminate Hdoc].
  destruct (ssm_stress_step fake_repr args "disk" doc Hdoc)
    as (a & ids & commands & _ & _ & _ & _ & _ & _ & Hc & _ & Hdisk).
  destruct (Hdisk eq_refl) as (target & -> & ->).
  exists doc. split; [done|]. rewrite Hc. vm_compute. reflexivity.
Defined.

(** Validating an existing file with a command line that succeeds. *)
Lemma validate_experiment_verdict_witness :
  ∃ text,
    validate_experiment fake_repr fake_str_exn fake_run
      {[ "experiment_file" := JStr "./fail_az.ec2.json" ]} ec2_world
    = (Ok [text_item text],
       after_call fake_run (validate_call "./fail_az.ec2.json") ec2_world) ∧
    text = "Validation result: PASSED" +:+ nl +:+ nl +:+ "ok" +:+ nl.
Proof.
  destruct (validate_experiment_verdict fake_repr fake_str_exn fake_run
              {[ "experiment_file" := JStr "./fail_az.ec2.json" ]}
              "./fail_az.ec2.json" ec2_world)
    as (text & Hrun & Hpass & _).
  - vm_compute. reflexivity.
  - exists "{}". vm_compute. reflexivity.
  - exists text. split; [exact Hrun|].
    apply (Hpass 0%Z "ok" EmptyString). reflexivity.
Defined.

(** Running an existing file with a journal path, when [chaos] cannot
    be started. *)
Lemma run_experiment_report_witness :
  let args : gmap string json :=
    {[ "experiment_file" := JStr "./fail_az.ec2.json";
       "journal_path" := JStr "./journal.json" ]} in
  ∃ text,
    (run_experiment fake_repr fake_str_exn broken_run args ec2_world).1
    = Ok [text_item text] ∧
    calls (run_experiment fake_repr fake_str_exn broken_run args ec2_world).2
    = [(mkCall [JStr "chaos"; JStr "run"; JStr "./fail_az.ec2.json";
                JStr "--journal-path"; JStr "./journal.json"]
               (Some (JStr "/work")) 3600,
        files ec2_world)] ∧
    text = "Error running experiment: No such file or directory: 'chaos'".
Proof.
  intros args.
  destruct (run_experiment_report fake_repr fake_str_exn broken_run args
              "./fail_az.ec2.json" ec2_world)
    as (text & Hrun & _ & Hfail).
  - vm_compute. reflexivity.
  - exists "{}". vm_compute. reflexivity.
  - exists text. rewrite Hrun. split; [done|]. split; [vm_compute; reflexivity|].
    apply (Hfail (OtherError "No such file or directory: 'chaos'")).
    + reflexivity.
    + intros cmd t. discriminate.
Defined.

(** A rollback of a state file that is there and of one that is not:
    two groups of entries, and one command. *)
Lemma rollback_runs_only_temp_files_witness :
  let args : gmap string json :=
    {[ "state_files" := JList (JStr <$> ["./fail_az.ec2.json"; "./gone.json"]) ]} in
  let r := rollback_from_state_io fake_repr fake_str_exn fake_dumps fake_run
             fresh_temp_name roomy args ec2_world in
  (∃ groups news,
     r.1 = Ok [text_item (join nl (concat groups))] ∧
     calls r.2 = concat news ∧
     Forall3 (step_trace fake_repr fake_dumps (JStr "/work"))
             ["./fail_az.ec2.json"; "./gone.json"] groups news) ∧
  length (calls r.2) = 1%nat.
Proof.
  intros args r. split.
  - apply (rollback_runs_only_temp_files fake_repr fake_str_exn fake_dumps fake_run
             fresh_temp_name roomy args ["./fail_az.ec2.json"; "./gone.json"] ec2_world).
    + intros w. apply fresh_string_fresh.
    + vm_compute. reflexivity.
  - vm_compute. reflexivity.
Defined.

(** A rollback whose commands all time out, with fresh temporary
    names: on a full disk the files that were there are as before, and
    where the temporary files get written all files are. *)
Lemma rollback_leaves_files_as_found_witness :
  let args : gmap string json :=
    {[ "state_files" := JList [JStr "./fail_az.ec2.json"; JStr "./gone.json"] ]} in
  files ec2_world
  ⊆ files (rollback_from_state_io fake_repr fake_str_exn fake_dumps slow_run
             fresh_temp_name full_disk args ec2_world).2 ∧
  files (rollback_from_state_io fake_repr fake_str_exn fake_dumps slow_run
           fresh_temp_name roomy args ec2_world).2
  = files ec2_world.
Proof.
  intros args. split.
  - apply (rollback_leaves_files_as_found fake_repr fake_str_exn fake_dumps slow_run
             fresh_temp_name full_disk).
    + intros c w. reflexivity.
    + intros w. apply fresh_string_fresh.
  - apply (rollback_leaves_files_as_found fake_repr fake_str_exn fake_dumps slow_run
             fresh_temp_name roomy).
    + intros c w. reflexivity.
    + intros w. apply fresh_string_fresh.
    + intros content w partial e. discriminate.
Defined.

(** One state file whose command times out, where the temporary file
    gets written, and the same state file on a full disk. *)
Lemma rollback_temp_file_fate_witness :
  (files (rollback_one_io fake_repr fake_str_exn fake_dumps slow_run fake_temp_name
            roomy (JStr "/work") (JStr "./fail_az.ec2.json") (ec2_world, [])).2.1
     !! "/tmp/tmp0.json" = None) ∧
  (files (rollback_one_io fake_repr fake_str_exn fake_dumps slow_run fake_temp_name
            full_disk (JStr "/work") (JStr "./fail_az.ec2.json") (ec2_world, [])).2.1
     !! "/tmp/tmp0.json" = Some EmptyString).
Proof.
  split.
  - apply (rollback_temp_file_fate fake_repr fake_str_exn fake_dumps slow_run
             fake_temp_name roomy (JStr "/work") "./fail_az.ec2.json"
             "azchaosaws.ec2.actions" ec2_world []).
    + exists "{}". reflexivity.
    + reflexivity.
  - apply (rollback_temp_file_fate fake_repr fake_str_exn fake_dumps slow_run
             fake_temp_name full_disk (JStr "/work") "./fail_az.ec2.json"
             "azchaosaws.ec2.actions" ec2_world []).
    + exists "{}". reflexivity.
    + reflexivity.
Defined.

(** Running an experiment without saying which. *)
Lemma execution_tool_missing_argument_witness :
  call_tool fake_repr fake_str_exn fake_dumps fake_run fake_temp_name
    "chaos_run_experiment" ∅ ec2_world
  = (Raise (KeyError "experiment_file"), ec2_world).
Proof.
  apply (execution_tool_missing_argument fake_repr fake_str_exn fake_dumps fake_run
           fake_temp_name
           (mkTool "chaos_run_experiment"
              ["experiment_file"; "dry_run"; "journal_path"; "working_directory"]
              ["experiment_file"])
           "experiment_file" ∅ ec2_world).
  - apply (list_elem_of_lookup_2 _ 5%nat). reflexivity.
  - apply (list_elem_of_lookup_2 _ 0%nat). reflexivity.
  - apply (list_elem_of_lookup_2 _ 0%nat). reflexivity.
  - reflexivity.
Defined.

(** A name the catalog does not advertise, and one it does. *)
Lemma call_tool_unknown_iff_unlisted_witness :
  (call_tool fake_repr fake_str_exn fake_dumps fake_run fake_temp_name
     "chaos_stop_everything" ∅ ec2_world).1
  = Raise (ValueError "Unknown tool: chaos_stop_everything") ∧
  (call_tool fake_repr fake_str_exn fake_dumps fake_run fake_temp_name
     "chaos_stop_instances" ∅ ec2_world).1
  ≠ Raise (ValueError "Unknown tool: chaos_stop_instances").
Proof.
  split.
  - apply (proj2 (call_tool_unknown_iff_unlisted fake_repr fake_str_exn fake_dumps
                    fake_run fake_temp_name "chaos_stop_everything" ∅ ec2_world)).
    apply (bool_decide_unpack _). vm_compute. exact I.
  - intros Hraise.
    apply (proj1 (call_tool_unknown_iff_unlisted fake_repr fake_str_exn fake_dumps
                    fake_run fake_temp_name "chaos_stop_instances" ∅ ec2_world) Hraise).
    apply (bool_decide_unpack _). vm_compute. exact I.
Defined.

(** A rollback that succeeds, and one whose command removes the
    temporary file before [unlink] gets to it. *)
Lemma rollback_one_reports_witness :
  (rollback_one fake_repr fake_str_exn fake_dumps fake_run fake_temp_name
     (JStr "/work") (JStr "./fail_az.ec2.json") (ec2_world, [])).2.2
  = ["Rollback from ./fail_az.ec2.json: SUCCESS"; "Output: ok"] ∧
  (rollback_one fake_repr fake_str_exn fake_dumps wiping_run fake_temp_name
     (JStr "/work") (JStr "./fail_az.ec2.json") (ec2_world, [])).2.2
  = ["Rollback from ./fail_az.ec2.json: SUCCESS";
     "Error rolling back ./fail_az.ec2.json: " +:+
     "No such file or directory: /tmp/tmp0.json"].
Proof.
  split.
  - rewrite (proj1 (rollback_one_reports fake_repr fake_str_exn fake_dumps fake_run
                      fake_temp_name (JStr "/work") "./fail_az.ec2.json"
                      "azchaosaws.ec2.actions" ec2_world []
                      ltac:(exists "{}"; vm_compute; reflexivity) eq_refl)).
    + vm_compute. reflexivity.
    + eexists. vm_compute. reflexivity.
  - rewrite (proj2 (rollback_one_reports fake_repr fake_str_exn fake_dumps wiping_run
                      fake_temp_name (JStr "/work") "./fail_az.ec2.json"
                      "azchaosaws.ec2.actions" ec2_world []
                      ltac:(exists "{}"; vm_compute; reflexivity) eq_refl)).
    + vm_compute. reflexivity.
    + vm_compute. reflexivity.
Defined.

(** Stopping instances without saying where to write: the file does not
    go where the schema says. *)
Lemma default_output_file_vs_schema_witness :
  ∃ out content,
    (call_tool fake_repr fake_str_exn fake_dumps fake_run fake_temp_name
       "chaos_stop_instances" {[ "title" := JStr "Stop" ]} empty_world).2
    = mkWorld {[ out := content ]} "/work" [] [] ∧
    out ≠ "./stop-instances-experiment.json".
Proof.
  destruct (call_tool fake_repr fake_str_exn fake_dumps fake_run fake_temp_name
              "chaos_stop_instances" {[ "title" := JStr "Stop" ]} empty_world)
    as [[items|e] w'] eqn:Hcall; [|vm_compute in Hcall; discriminate Hcall].
  destruct (default_output_file_vs_schema fake_repr fake_str_exn fake_dumps fake_run
              fake_temp_name "chaos_stop_instances" "./stop-instances-experiment.json"
              {[ "title" := JStr "Stop" ]} empty_world w' items)
    as (out & content & -> & Hiff).
  - apply (list_elem_of_lookup_2 _ 5%nat). reflexivity.
  - vm_compute. reflexivity.
  - exact Hcall.
  - exists out, content. split; [reflexivity|].
    intros Heq. apply Hiff in Heq. unfold tools_writing_as_advertised in Heq.
    elem_cases Heq; discriminate.
Defined.
